(** * Pinhole-camera geometry module ([impreproc/camera.py]): shallow embedding

    The Python module is embedded function by function.  The conventions are:

    - numbers: a NumPy float is modelled by an exact rational in canonical
      form ([Qc]), so equality of numbers is Leibniz equality and arithmetic
      carries no rounding error, no infinities and no NaN.  What is proved
      of numeric results is therefore stated where double precision is
      exact as well (copies, comparisons, products with 0, 1 and -1, sums
      with one non-zero term); where rounding decides, the conversions are
      evaluated in IEEE double arithmetic (module [F64]);
    - strings: byte strings; [lower] and [split] are those of Python on
      ASCII text, which the statements about them assume ([is_ascii]);
    - arrays: [ndarray] covers ranks 0, 1 and 2 (the ranks this module
      manipulates), with the dtype tag that [update_extrinsics] inspects;
    - effects: a computation of type [py A] either returns a value or raises
      a Python exception, and carries the records it sent to [logging];
    - dictionaries ([exif], XML attributes, the file system seen by
      [Path.exists]) are finite maps with string keys;
    - [assert] statements are enabled, so a failed one raises
      [AssertionError] (the "ValidationError" of the design document).

    [project_point] and [euler_angles] delegate to OpenCV and to
    trigonometric functions and are left out. *)

From Stdlib Require Import QArith Qcanon Qabs ZArith List String Ascii Lia.
From Stdlib Require Import Floats.
From stdpp Require Import base option list gmap strings.

Local Open Scope Qc_scope.

(** ** Exceptions, logging and the computation monad *)

Inductive exn_class :=
| AssertionError | ValueError | IndexError | KeyError | LookupError
| TypeError | AttributeError | OSError | FileNotFoundError | LinAlgError.

#[global] Instance exn_class_eq_dec : EqDecision exn_class.
Proof. solve_decision. Defined.

Record exn := Exn { exn_cls : exn_class; exn_msg : string }.

(** Python's built-in hierarchy, restricted to the classes above:
    [KeyError] and [IndexError] derive from [LookupError],
    [FileNotFoundError] from [OSError], [LinAlgError] from [ValueError]. *)
Definition issubclass (c base : exn_class) : bool :=
  match c, base with
  | KeyError, LookupError
  | IndexError, LookupError
  | FileNotFoundError, OSError
  | LinAlgError, ValueError => true
  | _, _ => bool_decide (c = base)
  end.

Inductive log_record :=
| LogError (msg : string)
| LogInfo (msg : string).

Inductive outcome (A : Type) :=
| Return (a : A)
| Raise (e : exn).
Arguments Return {A} a.
Arguments Raise {A} e.

Definition py (A : Type) : Type := (outcome A * list log_record)%type.

Definition ret {A} (a : A) : py A := (Return a, []).

Definition raise {A} (c : exn_class) (m : string) : py A :=
  (Raise (Exn c m), []).

Definition bind {A B} (m : py A) (k : A -> py B) : py B :=
  match m with
  | (Return a, l1) => let '(r, l2) := k a in (r, l1 ++ l2)
  | (Raise e, l1) => (Raise e, l1)
  end.

#[global] Instance py_ret : MRet py := @ret.
#[global] Instance py_bind : MBind py := fun A B k m => bind m k.

Definition logging_error (m : string) : py unit := (Return tt, [LogError m]).
Definition logging_info (m : string) : py unit := (Return tt, [LogInfo m]).

(** [assert cond, msg] *)
Definition py_assert (cond : bool) (m : string) : py unit :=
  if cond then ret tt else raise AssertionError m.

(** [try: body  except base: handler] *)
Definition try_except {A} (body : py A) (base : exn_class) (handler : py A)
  : py A :=
  match body with
  | (Raise e, l1) =>
      if issubclass (exn_cls e) base
      then let '(r, l2) := handler in (r, l1 ++ l2)
      else (Raise e, l1)
  | (Return a, l1) => (Return a, l1)
  end.

Definition returned {A} (m : py A) : option A :=
  match m.1 with Return a => Some a | Raise _ => None end.

Definition raised {A} (m : py A) : option exn_class :=
  match m.1 with Return _ => None | Raise e => Some (exn_cls e) end.

(** ** Arrays *)

Inductive dtype := float64 | float32 | int64.

#[global] Instance dtype_eq_dec : EqDecision dtype.
Proof. solve_decision. Defined.

(** NumPy's result type for two of the dtypes above. *)
Definition promote (a b : dtype) : dtype :=
  match a, b with
  | float64, _ | _, float64 => float64
  | float32, float32 => float32
  | int64, int64 => int64
  | float32, int64 | int64, float32 => float64
  end.

(** [Arr2 dt nc rows] is an array of shape [(length rows, nc)], stored by
    rows (C order); it is well formed when every row has [nc] entries. *)
Inductive ndarray :=
| Arr0 (dt : dtype) (x : Qc)
| Arr1 (dt : dtype) (v : list Qc)
| Arr2 (dt : dtype) (nc : nat) (rows : list (list Qc)).

Definition dtype_of (a : ndarray) : dtype :=
  match a with Arr0 dt _ | Arr1 dt _ | Arr2 dt _ _ => dt end.

Definition shape (a : ndarray) : list nat :=
  match a with
  | Arr0 _ _ => []
  | Arr1 _ v => [length v]
  | Arr2 _ nc rows => [length rows; nc]
  end.

Definition wf (a : ndarray) : bool :=
  match a with
  | Arr2 _ nc rows => forallb (fun r => Nat.eqb (length r) nc) rows
  | _ => true
  end.

(** All entries in C order ([ndarray.ravel]). *)
Definition ravel (a : ndarray) : list Qc :=
  match a with
  | Arr0 _ x => [x]
  | Arr1 _ v => v
  | Arr2 _ _ rows => concat rows
  end.

(** [shape[i]] on the shape tuple. *)
Definition shape_at (a : ndarray) (i : nat) : py nat :=
  match shape a !! i with
  | Some n => ret n
  | None => raise IndexError "tuple index out of range"
  end.

(** [len(a)] *)
Definition np_len (a : ndarray) : py nat :=
  match shape a with
  | n :: _ => ret n
  | [] => raise TypeError "len() of unsized object"
  end.

(** [l[lo:hi]] for non-negative bounds; an absent [hi] is the open end. *)
Definition py_slice {A} (lo : nat) (hi : option nat) (l : list A) : list A :=
  match hi with
  | Some h => take (h - lo) (drop lo l)
  | None => drop lo l
  end.

Definition slice_len (lo : nat) (hi : option nat) (n : nat) : nat :=
  match hi with
  | Some h => Nat.min (h - lo) (n - lo)
  | None => n - lo
  end.

(** [a[i]] for a non-negative integer [i]. *)
Definition getitem (a : ndarray) (i : nat) : py ndarray :=
  match a with
  | Arr0 _ _ => raise IndexError "too many indices for array"
  | Arr1 dt v =>
      match v !! i with
      | Some x => ret (Arr0 dt x)
      | None => raise IndexError "index out of bounds"
      end
  | Arr2 dt _ rows =>
      match rows !! i with
      | Some r => ret (Arr1 dt r)
      | None => raise IndexError "index out of bounds"
      end
  end.

(** [a[lo:hi]] *)
Definition getslice (a : ndarray) (lo : nat) (hi : option nat) : py ndarray :=
  match a with
  | Arr0 _ _ => raise IndexError "too many indices for array"
  | Arr1 dt v => ret (Arr1 dt (py_slice lo hi v))
  | Arr2 dt nc rows => ret (Arr2 dt nc (py_slice lo hi rows))
  end.

(** [a[r0:r1, c0:c1]] *)
Definition getslice2 (a : ndarray) (r0 : nat) (r1 : option nat)
    (c0 : nat) (c1 : option nat) : py ndarray :=
  match a with
  | Arr2 dt nc rows =>
      ret (Arr2 dt (slice_len c0 c1 nc)
             (map (py_slice c0 c1) (py_slice r0 r1 rows)))
  | _ => raise IndexError "too many indices for array"
  end.

(** [a[i, :]] *)
Definition getrow (a : ndarray) (i : nat) : py ndarray :=
  match a with
  | Arr2 dt _ rows =>
      match rows !! i with
      | Some r => ret (Arr1 dt r)
      | None => raise IndexError "index out of bounds"
      end
  | _ => raise IndexError "too many indices for array"
  end.

(** [a[:, j]] *)
Definition getcol (a : ndarray) (j : nat) : py ndarray :=
  match a with
  | Arr2 dt nc rows =>
      if decide (j < nc)%nat
      then ret (Arr1 dt (map (fun r => nth j r 0) rows))
      else raise IndexError "index out of bounds"
  | _ => raise IndexError "too many indices for array"
  end.

Definition entry (a : ndarray) (i j : nat) : Qc :=
  match a with
  | Arr2 _ _ rows => nth j (nth i rows []) 0
  | _ => 0
  end.

Fixpoint chunks {A} (n : nat) (c : nat) (l : list A) : list (list A) :=
  match n with
  | O => []
  | S n' => take c l :: chunks n' c (drop c l)
  end.

(** [a.reshape(r, c)] (C order) *)
Definition reshape2 (a : ndarray) (r c : nat) : py ndarray :=
  if decide (length (ravel a) = r * c)%nat
  then ret (Arr2 (dtype_of a) c (chunks r c (ravel a)))
  else raise ValueError "cannot reshape array".

(** [a.astype(float)] *)
Definition astype_float (a : ndarray) : ndarray :=
  match a with
  | Arr0 _ x => Arr0 float64 x
  | Arr1 _ v => Arr1 float64 v
  | Arr2 _ nc rows => Arr2 float64 nc rows
  end.

Definition np_zeros2 (r c : nat) : ndarray :=
  Arr2 float64 c (replicate r (replicate c 0)).

Definition np_eye (n : nat) : ndarray :=
  Arr2 float64 n
    (map (fun i => map (fun j => if decide (i = j) then 1 else 0) (seq 0 n))
       (seq 0 n)).

(** [np.array([...])] of Python floats *)
Definition np_array1 (v : list Qc) : ndarray := Arr1 float64 v.

(** [a.T] *)
Definition transpose (a : ndarray) : ndarray :=
  match a with
  | Arr2 dt nc rows =>
      Arr2 dt (length rows)
        (map (fun j => map (fun r => nth j r 0) rows) (seq 0 nc))
  | _ => a
  end.

(** [-a] *)
Definition np_neg (a : ndarray) : ndarray :=
  match a with
  | Arr0 dt x => Arr0 dt (- x)
  | Arr1 dt v => Arr1 dt (map Qcopp v)
  | Arr2 dt nc rows => Arr2 dt nc (map (map Qcopp) rows)
  end.

Fixpoint vdot (u v : list Qc) : Qc :=
  match u, v with
  | x :: u', y :: v' => x * y + vdot u' v'
  | _, _ => 0
  end.

Definition columns (nc : nat) (rows : list (list Qc)) : list (list Qc) :=
  map (fun j => map (fun r => nth j r 0) rows) (seq 0 nc).

(** [a @ b] for operands of rank 1 or 2; an operand of rank 0 is refused.
    The entries are exact sums of exact products: they are those of NumPy
    where no product or sum rounds (and, for [int64], none overflows). *)
Definition matmul (a b : ndarray) : py ndarray :=
  match a, b with
  | Arr2 da ka ra, Arr2 db nb rb =>
      if decide (ka = length rb)
      then ret (Arr2 (promote da db) nb
                  (map (fun r => map (vdot r) (columns nb rb)) ra))
      else raise ValueError "matmul: mismatch in core dimension"
  | Arr2 da ka ra, Arr1 db vb =>
      if decide (ka = length vb)
      then ret (Arr1 (promote da db) (map (fun r => vdot r vb) ra))
      else raise ValueError "matmul: mismatch in core dimension"
  | Arr1 da va, Arr2 db nb rb =>
      if decide (length va = length rb)
      then ret (Arr1 (promote da db) (map (vdot va) (columns nb rb)))
      else raise ValueError "matmul: mismatch in core dimension"
  | Arr1 da va, Arr1 db vb =>
      if decide (length va = length vb)
      then ret (Arr0 (promote da db) (vdot va vb))
      else raise ValueError "matmul: mismatch in core dimension"
  | _, _ => raise ValueError "matmul: operand does not have enough dimensions"
  end.

(** [np.dot(a, b)]: as [a @ b], except that a rank-0 operand scales the other. *)
Definition np_dot (a b : ndarray) : py ndarray :=
  match a, b with
  | Arr0 da x, Arr0 db y => ret (Arr0 (promote da db) (x * y))
  | Arr0 da x, Arr1 db v | Arr1 db v, Arr0 da x =>
      ret (Arr1 (promote da db) (map (Qcmult x) v))
  | Arr0 da x, Arr2 db nc rows | Arr2 db nc rows, Arr0 da x =>
      ret (Arr2 (promote da db) nc (map (map (Qcmult x)) rows))
  | _, _ =>
      match matmul a b with
      | (Raise _, l) => (Raise (Exn ValueError "shapes not aligned"), l)
      | ok => ok
      end
  end.

(** [x @ y] where either operand may be Python's [None]: NumPy refuses a
    [None] next to an array, and two [None]s have no [@] at all. *)
Definition matmul_opt (a b : option ndarray) : py ndarray :=
  match a, b with
  | Some x, Some y => matmul x y
  | None, None => raise TypeError "unsupported operand type(s) for @"
  | _, _ => raise ValueError "matmul: operand does not have enough dimensions"
  end.

(** [np.array_equal(a, b)] *)
Definition array_equal (a b : ndarray) : bool :=
  bool_decide (shape a = shape b) && bool_decide (ravel a = ravel b).

(** A rank-2 view (dtype, columns, rows) as [np.block] takes of each item. *)
Definition atleast_2d (a : ndarray) : dtype * nat * list (list Qc) :=
  match a with
  | Arr0 dt x => (dt, 1%nat, [[x]])
  | Arr1 dt v => (dt, length v, [v])
  | Arr2 dt nc rows => (dt, nc, rows)
  end.

(** Concatenation along the last axis: the row counts must agree. *)
Definition hconcat (a b : dtype * nat * list (list Qc))
  : py (dtype * nat * list (list Qc)) :=
  let '(da, na, ra) := a in
  let '(db, nb, rb) := b in
  if decide (length ra = length rb)
  then ret (promote da db, (na + nb)%nat, zip_with app ra rb)
  else raise ValueError "all the input array dimensions except for the concatenation axis must match exactly".

(** Concatenation along the first axis: the column counts must agree. *)
Definition vconcat (a b : dtype * nat * list (list Qc)) : py ndarray :=
  let '(da, na, ra) := a in
  let '(db, nb, rb) := b in
  if decide (na = nb)
  then ret (Arr2 (promote da db) na (ra ++ rb))
  else raise ValueError "all the input array dimensions except for the concatenation axis must match exactly".

(** [np.block([[a, b], [c, d]])] *)
Definition np_block22 (a b c d : ndarray) : py ndarray :=
  top ← hconcat (atleast_2d a) (atleast_2d b);
  bot ← hconcat (atleast_2d c) (atleast_2d d);
  vconcat top bot.

(** The Python integer literal [1] used as an array item. *)
Definition py_one : ndarray := Arr0 int64 1.

(** ** GeometryOps: the pure methods of [Camera] *)

Definition msg_unknown : string := "Error: unknown input matrix dimensions.".

(** [Camera.build_block_matrix]; the result is an array or Python's [None]. *)
Definition build_block_matrix (mat : ndarray) : py (option ndarray) :=
  n ← shape_at mat 1;
  if decide (n = 3%nat) then
    block ← np_block22 mat (np_zeros2 3 1) (np_zeros2 1 3) py_one;
    ret (Some block)
  else if decide (n = 1%nat) then
    block ← np_block22 (np_eye 3) mat (np_zeros2 1 3) py_one;
    ret (Some block)
  else
    _ ← logging_error msg_unknown;
    ret None.

(** [np.dot(x, y)] where either operand may be [None]: the product of
    [None] with a number is a [TypeError]. *)
Definition np_dot_opt (a b : option ndarray) : py ndarray :=
  match a, b with
  | Some x, Some y => np_dot x y
  | _, _ => raise TypeError "unsupported operand type(s) for *"
  end.

(** [Camera.extrinsics_to_pose], the matrix being given. *)
Definition extrinsics_to_pose_of (extrinsics : ndarray) : py ndarray :=
  R ← getslice2 extrinsics 0 (Some 3%nat) 0 (Some 3%nat);
  t ← getslice2 extrinsics 0 (Some 3%nat) 3 (Some 4%nat);
  let Rc := transpose R in
  Rct ← np_dot Rc t;
  let C := np_neg Rct in
  Rc_block ← build_block_matrix Rc;
  C_block ← build_block_matrix C;
  np_dot_opt C_block Rc_block.

(** [Camera.pose_to_extrinsics]; [-R @ C] is [(-R) @ C]. *)
Definition pose_to_extrinsics (pose : ndarray) : py ndarray :=
  Rc ← getslice2 pose 0 (Some 3%nat) 0 (Some 3%nat);
  C ← getslice2 pose 0 (Some 3%nat) 3 (Some 4%nat);
  let R := transpose Rc in
  t ← matmul (np_neg R) C;
  t_block ← build_block_matrix t;
  R_block ← build_block_matrix R;
  matmul_opt t_block R_block.

(** [Camera.Rt_to_extrinsics] *)
Definition Rt_to_extrinsics (R t : ndarray) : py ndarray :=
  t' ← (if bool_decide (length (shape t) = 1%nat)
           || bool_decide (shape t = [1; 3]%nat)
        then
          n ← shape_at t 0;
          _ ← py_assert (bool_decide (n = 3%nat)) "Invalid translation vector";
          reshape2 t 3 1
        else ret t);
  R_block ← build_block_matrix R;
  t_block ← build_block_matrix t';
  matmul_opt t_block R_block.

(** ** CameraModel *)

(** The instance dictionary of a [Camera].  [_width] and [_height] are the
    attributes that [read_calibration_from_file] assigns; they do not exist
    before that call. *)
Record Camera := mkCamera {
  _w : ndarray;
  _h : ndarray;
  _K : option ndarray;
  _dist : option ndarray;
  _extrinsics : ndarray;
  _width : option ndarray;
  _height : option ndarray;
}.

(** Getters (the [@property] accessors). *)
Definition width (self : Camera) : ndarray := _w self.
Definition height (self : Camera) : ndarray := _h self.
Definition K (self : Camera) : option ndarray := _K self.
Definition dist (self : Camera) : option ndarray := _dist self.
Definition extrinsics (self : Camera) : ndarray := _extrinsics self.

Definition Camera_t (self : Camera) : py ndarray :=
  getslice2 (_extrinsics self) 0 (Some 3%nat) 3 (Some 4%nat).

Definition Camera_R (self : Camera) : py ndarray :=
  getslice2 (_extrinsics self) 0 (Some 3%nat) 0 (Some 3%nat).

(** [extrinsics_to_pose(self, extrinsics=None)] *)
Definition extrinsics_to_pose (self : Camera) (extrinsics : option ndarray)
  : py ndarray :=
  extrinsics_to_pose_of (default (_extrinsics self) extrinsics).

Definition pose (self : Camera) : py ndarray := extrinsics_to_pose self None.

Definition Camera_C (self : Camera) : py ndarray :=
  p ← extrinsics_to_pose self None;
  getslice2 p 0 (Some 3%nat) 3 (Some 4%nat).

(** Setters. *)
Definition update_K (self : Camera) (K : ndarray) : Camera :=
  mkCamera (_w self) (_h self) (Some K) (_dist self) (_extrinsics self)
    (_width self) (_height self).

Definition update_dist (self : Camera) (dist : ndarray) : Camera :=
  mkCamera (_w self) (_h self) (_K self) (Some dist) (_extrinsics self)
    (_width self) (_height self).

Definition set_extrinsics (self : Camera) (e : ndarray) : Camera :=
  mkCamera (_w self) (_h self) (_K self) (_dist self) e
    (_width self) (_height self).

Definition msg_shape : string :=
  "Wrong dimension of the extrinsics matrix. Please, provide a 4x4 numpy array (extrinsics in homogeneous coordinates).".
Definition msg_dtype : string :=
  "Wrong data type of the extrinsics matrix. Please, provide a numpy array of Double type (np.float64).".
Definition msg_homogeneous : string :=
  "Extrinsics must be in homogeneous coordinates (last row of the matrix must be [0 0 0 1].".

Definition homogeneous_row : ndarray := np_array1 [0; 0; 0; 1].

(** [Camera.update_extrinsics] *)
Definition update_extrinsics (self : Camera) (extrinsics : ndarray)
  : py Camera :=
  _ ← py_assert (bool_decide (shape extrinsics = [4; 4]%nat)) msg_shape;
  _ ← py_assert (bool_decide (dtype_of extrinsics = float64)) msg_dtype;
  last ← getrow extrinsics 3;
  _ ← py_assert (array_equal last homogeneous_row) msg_homogeneous;
  ret (set_extrinsics self extrinsics).

(** [Camera.reset_EO] *)
Definition reset_EO (self : Camera) : Camera := set_extrinsics self (np_eye 4).

(** ** CalibrationLoader, plain-text format *)

(** A text file is modelled by its lines, each line by the numbers its
    whitespace-separated tokens denote. *)
Abbreviation filesystem := (gmap string (list (list Qc))).

(** [np.loadtxt] with its default [ndmin=0]: blank lines are skipped and
    axes of length one are squeezed, so a single value is a rank-0 array,
    a single row or a single column a rank-1 array. *)
Definition np_loadtxt (lines : list (list Qc)) : py ndarray :=
  match filter (fun l : list Qc => l ≠ []) lines with
  | [] => ret (Arr1 float64 [])
  | [[x]] => ret (Arr0 float64 x)
  | [row] => ret (Arr1 float64 row)
  | row :: rest =>
      if bool_decide (Forall (fun r : list Qc => length r = length row) rest)
      then if decide (length row = 1%nat)
           then ret (Arr1 float64 (concat (row :: rest)))
           else ret (Arr2 float64 (length row) (row :: rest))
      else raise ValueError "the number of columns changed"
  end.

Definition msg_grammar : string :=
  "Invalid intrinsics data. Calibration file must be formatted as follows:"
  +:+ String (ascii_of_nat 10)
        "width height fx 0. cx 0. fy cy 0. 0. 1. k1, k2, p1, p2, [k3, [k4, k5, k6".

(** [read_opencv_calibration(path, verbose)] *)
Definition read_opencv_calibration (fs : filesystem) (path : string)
    (verbose : bool) : py (ndarray * ndarray * ndarray * ndarray) :=
  match fs !! path with
  | None => raise ValueError "Calibration filed does not exist."
  | Some f =>
      data ← np_loadtxt f;
      w ← getitem data 0;
      h ← getitem data 1;
      k ← getslice data 2 (Some 11%nat);
      K ← reshape2 (astype_float k) 3 3;
      n ← np_len data;
      dist ←
        (if decide (n = 15%nat) then
           _ ← (if verbose then logging_info "Using OPENCV camera model."
                else ret tt);
           d ← getslice data 11 (Some 15%nat);
           ret (astype_float d)
         else if decide (n = 16%nat) then
           _ ← (if verbose then logging_info "Using OPENCV camera model + k3"
                else ret tt);
           d ← getslice data 11 (Some 16%nat);
           ret (astype_float d)
         else if decide (n = 19%nat) then
           _ ← (if verbose then logging_info "Using FULL OPENCV camera model"
                else ret tt);
           d ← getslice data 11 (Some 19%nat);
           ret (astype_float d)
         else raise ValueError msg_grammar);
      ret (w, h, K, dist)
  end.

(** [Camera.read_calibration_from_file] *)
Definition read_calibration_from_file (fs : filesystem) (self : Camera)
    (path : string) : py Camera :=
  '(w, h, K, dist) ← read_opencv_calibration fs path false;
  ret (mkCamera (_w self) (_h self) (Some K) (Some dist) (_extrinsics self)
         (Some w) (Some h)).

(** [Camera.__init__]; an absent keyword argument is [None]. *)
Definition Camera_init (fs : filesystem) (width height : ndarray)
    (K dist R t extrinsics : option ndarray) (calib_path : option string)
  : py Camera :=
  let self := reset_EO (mkCamera width height K dist (np_eye 4) None None) in
  self ← match R, t with
         | Some R, Some t =>
             e ← Rt_to_extrinsics R t; ret (set_extrinsics self e)
         | _, _ => ret self
         end;
  let self := match extrinsics with
              | Some e => set_extrinsics self e
              | None => self
              end in
  match calib_path with
  | Some p => read_calibration_from_file fs self p
  | None => ret self
  end.

(** ** MatrixFactorizer *)

Definition sign (x : Qc) : Qc :=
  match x ?= 0 with
  | Lt => - (1)
  | Eq => 0
  | Gt => 1
  end.

(** [np.sign] *)
Definition np_sign (a : ndarray) : ndarray :=
  match a with
  | Arr0 dt x => Arr0 dt (sign x)
  | Arr1 dt v => Arr1 dt (map sign v)
  | Arr2 dt nc rows => Arr2 dt nc (map (map sign) rows)
  end.

(** [np.diag]: the diagonal of a matrix, or the diagonal matrix of a vector. *)
Definition np_diag (a : ndarray) : py ndarray :=
  match a with
  | Arr0 _ _ => raise ValueError "Input must be 1- or 2-d."
  | Arr1 dt v =>
      ret (Arr2 dt (length v)
             (imap (fun i x => <[i:=x]> (replicate (length v) 0)) v))
  | Arr2 dt nc rows =>
      ret (Arr1 dt (imap (fun i r => nth i r 0)
                      (take (Nat.min (length rows) nc) rows)))
  end.

Definition drop_nth {A} (j : nat) (l : list A) : list A :=
  take j l ++ drop (S j) l.

Definition alt_sign (j : nat) (x : Qc) : Qc := if Nat.even j then x else - x.

(** Determinant of the [n] by [n] matrix [rows], expanded along the first row. *)
Fixpoint det_rows (n : nat) (rows : list (list Qc)) : Qc :=
  match n, rows with
  | S n', r :: rest =>
      foldr Qcplus 0
        (imap (fun j x => alt_sign j x * det_rows n' (map (drop_nth j) rest)) r)
  | _, _ => 1
  end.

(** [scipy.linalg.det] *)
Definition linalg_det (a : ndarray) : py Qc :=
  match a with
  | Arr2 _ nc rows =>
      if decide (length rows = nc) then ret (det_rows nc rows)
      else raise ValueError "expected square matrix"
  | _ => raise ValueError "expected square matrix"
  end.

Definition cofactor (n : nat) (rows : list (list Qc)) (i j : nat) : Qc :=
  alt_sign (i + j) (det_rows (n - 1) (map (drop_nth j) (drop_nth i rows))).

(** [scipy.linalg.inv]: the adjugate over the determinant, in exact
    arithmetic.  LAPACK refuses a matrix when elimination meets a pivot
    that is exactly zero; for the triangular matrices [factor_P] inverts
    that is a zero on the diagonal, which is when the determinant is
    zero. *)
Definition linalg_inv (a : ndarray) : py ndarray :=
  match a with
  | Arr2 _ nc rows =>
      if decide (length rows = nc) then
        let d := det_rows nc rows in
        if decide (d = 0) then raise LinAlgError "singular matrix"
        else ret (Arr2 float64 nc
                    (map (fun i => map (fun j => cofactor nc rows j i / d)
                                     (seq 0 nc)) (seq 0 nc)))
      else raise ValueError "expected square matrix"
  | _ => raise ValueError "expected square matrix"
  end.

(** [a[i, j] *= s] *)
Definition imul_at (a : ndarray) (i j : nat) (s : Qc) : py ndarray :=
  match a with
  | Arr2 dt nc rows =>
      if decide (i < length rows ∧ j < nc)%nat
      then ret (Arr2 dt nc (alter (alter (fun x => x * s) j) i rows))
      else raise IndexError "index out of bounds"
  | _ => raise IndexError "too many indices for array"
  end.

(** The entry that [value] contributes at [(i, j)] when broadcast to shape
    [(r, c)], if NumPy can broadcast it. *)
Definition broadcast_to2 (value : ndarray) (r c : nat)
  : option (nat -> nat -> Qc) :=
  match value with
  | Arr0 _ x => Some (fun _ _ => x)
  | Arr1 _ v =>
      if decide (length v = c) then Some (fun _ j => nth j v 0)
      else if decide (length v = 1%nat) then Some (fun _ _ => nth 0 v 0)
      else None
  | Arr2 _ nc rows =>
      if bool_decide (length rows = r ∨ length rows = 1%nat)
         && bool_decide (nc = c ∨ nc = 1%nat)
      then Some (fun i j =>
                   nth (if decide (nc = 1%nat) then 0%nat else j)
                     (nth (if decide (length rows = 1%nat) then 0%nat else i)
                        rows []) 0)
      else None
  end.

(** [target[:, c0:c1] = value] *)
Definition setcols (target : ndarray) (c0 c1 : nat) (value : ndarray)
  : py ndarray :=
  match target with
  | Arr2 dt nc rows =>
      let wd := slice_len c0 (Some c1) nc in
      match broadcast_to2 value (length rows) wd with
      | Some f =>
          ret (Arr2 dt nc
                 (imap (fun i row =>
                          take c0 row ++ map (f i) (seq 0 wd) ++ drop c1 row)
                    rows))
      | None => raise ValueError "could not broadcast input array"
      end
  | _ => raise IndexError "too many indices for array"
  end.

(** The [P] property: [K @ [R | t]]. *)
Definition P (self : Camera) : py ndarray :=
  let RT := np_zeros2 3 4 in
  R ← Camera_R self;
  RT ← setcols RT 0 3 R;
  t ← Camera_t self;
  RT ← setcols RT 3 4 t;
  matmul_opt (K self) (Some RT).

Section MatrixFactorizer.

(** The RQ routine ([scipy.linalg.rq]) is an external collaborator. *)
Variable rq : ndarray -> py (ndarray * ndarray).

(** [Camera.factor_P] *)
Definition factor_P (self : Camera) : py (ndarray * ndarray * ndarray) :=
  p ← P self;
  p3 ← getslice2 p 0 None 0 (Some 3%nat);
  '(K, R) ← rq p3;
  dK ← np_diag K;
  T ← np_diag (np_sign dK);
  d ← linalg_det T;
  T ← (if decide (d < 0) then imul_at T 1 1 (- (1)) else ret T);
  K ← np_dot K T;
  R ← np_dot T R;
  Kinv ← linalg_inv K;
  p ← P self;
  p4 ← getcol p 3;
  t ← np_dot Kinv p4;
  t ← reshape2 t 3 1;
  ret (K, R, t).

End MatrixFactorizer.

(** ** Strings and dictionaries *)

(** [d[k]] on a dictionary *)
Definition dict_getitem {V} (d : gmap string V) (k : string) : py V :=
  match d !! k with
  | Some v => ret v
  | None => raise KeyError k
  end.

(** [l[i]] on a list *)
Definition list_getitem {A} (l : list A) (i : nat) : py A :=
  match l !! i with
  | Some x => ret x
  | None => raise IndexError "list index out of range"
  end.

(** ASCII white space, as [str.split()] and [str.isspace] see it. *)
Definition is_space (c : ascii) : bool :=
  let n := nat_of_ascii c in
  ((9 <=? n) && (n <=? 13) || (28 <=? n) && (n <=? 32))%nat.

Definition lower_ascii (c : ascii) : ascii :=
  let n := nat_of_ascii c in
  if ((65 <=? n) && (n <=? 90))%nat then ascii_of_nat (n + 32) else c.

(** Text without bytes above 127. *)
Definition is_ascii (s : string) : bool :=
  forallb (fun c => (nat_of_ascii c <? 128)%nat) (list_ascii_of_string s).

(** [s.lower()], on ASCII text: bytes above 127 are left as they are,
    where Python lower-cases the letters they encode. *)
Fixpoint str_lower (s : string) : string :=
  match s with
  | EmptyString => EmptyString
  | String c s' => String (lower_ascii c) (str_lower s')
  end.

(** [s.split()] on ASCII text ([is_space] is Python's white space below
    128): [cur] is the token being read, in reverse. *)
Fixpoint split_go (s : string) (cur : list ascii) : list string :=
  let flush rest :=
    match cur with
    | [] => rest
    | _ => string_of_list_ascii (rev cur) :: rest
    end in
  match s with
  | EmptyString => flush []
  | String c s' =>
      if is_space c then flush (split_go s' []) else split_go s' (c :: cur)
  end.

Definition str_split (s : string) : list string := split_go s [].

(** ** CalibrationLoader, EXIF estimate *)

(** An EXIF tag as the EXIF reader exposes it. *)
Record IfdTag := { values : list Qc; printable : string }.

(** One row of the sensor database. *)
Record sensor_row := {
  CameraMaker : string;
  CameraModel : string;
  SensorWidth : Qc;
}.

(** [SensorWidthDatabase.__init__]: [csv] is what [pd.read_csv] yields for
    the database file, or the exception it raises. *)
Definition SensorWidthDatabase (csv : py (list sensor_row))
  : py (list sensor_row) :=
  df ← csv;
  ret (map (fun r => Build_sensor_row (str_lower (CameraMaker r))
                       (str_lower (CameraModel r)) (SensorWidth r)) df).

(** [SensorWidthDatabase.lookup] *)
Definition lookup (df : list sensor_row) (make model : string) : py Qc :=
  first ← list_getitem (str_split make) 0;
  let lower_make := str_lower first in
  let lower_model := str_lower model in
  let selected :=
    filter (fun r => CameraMaker r = lower_make ∧ CameraModel r = lower_model)
      df in
  if decide (length selected ≠ 1%nat)
  then raise LookupError
         ("make='" ++ make ++ "' and model='" ++ model
          ++ "' not found in sensor database")
  else r ← list_getitem selected 0; ret (SensorWidth r).

Section ExifEstimate.

(** The content of the sensor database file is not part of the sources. *)
Variable csv : py (list sensor_row).

Definition py_max (a b : Qc) : Qc := if decide (a < b) then b else a.

(** [Calibration.get_intrinsics_from_exif]; [None] is Python's [None].
    A zero sensor width is outside the model: NumPy would produce an
    infinite focal length, which [Qc] cannot hold. *)
Definition get_intrinsics_from_exif (exif : gmap string IfdTag)
  : py (option (Qc * Qc * ndarray * ndarray)) :=
  r1 ← try_except
         (tag ← dict_getitem exif "EXIF FocalLength";
          v ← list_getitem (values tag) 0;
          ret (Some v))
         OSError
         (_ ← logging_error "Unable to get sensor Focal length from EXIF data.";
          ret None);
  match r1 with
  | None => ret None
  | Some focal_length_mm =>
      r2 ← try_except
             (sensor_width_db ← SensorWidthDatabase csv;
              make ← dict_getitem exif "Image Make";
              model ← dict_getitem exif "Image Model";
              w ← lookup sensor_width_db (printable make) (printable model);
              ret (Some w))
             OSError
             (_ ← logging_error "Unable to get sensor size in mm from sensor database";
              ret None);
      match r2 with
      | None => ret None
      | Some sensor_width_mm =>
          r3 ← try_except
                 (tw ← dict_getitem exif "EXIF ExifImageWidth";
                  img_w_px ← list_getitem (values tw) 0;
                  th ← dict_getitem exif "EXIF ExifImageLength";
                  img_h_px ← list_getitem (values th) 0;
                  ret (Some (img_w_px, img_h_px)))
                 OSError
                 (_ ← logging_error "Unable to get image size in pixels from EXIF data.";
                  ret None);
          match r3 with
          | None => ret None
          | Some (img_w_px, img_h_px) =>
              let focal_length_px :=
                py_max img_h_px img_w_px * focal_length_mm
                / sensor_width_mm in
              let center_x := img_w_px / Q2Qc 2 in
              let center_y := img_h_px / Q2Qc 2 in
              let K := Arr2 float64 3
                         [[focal_length_px; 0; center_x];
                          [0; focal_length_px; center_y];
                          [0; 0; 1]] in
              let dist := Arr1 float64 (replicate 5 0) in
              ret (Some (img_w_px, img_h_px, K, dist))
          end
      end
  end.

End ExifEstimate.

(** ** CalibrationLoader, Agisoft/OpenCV XML *)

(** An [xml.etree.ElementTree.Element]. *)
#[local] Unset Elimination Schemes.
Inductive element :=
| Element (tag : string) (attrib : gmap string string) (text : option string)
    (children : list element).
#[local] Set Elimination Schemes.

Definition el_attrib (e : element) : gmap string string :=
  match e with Element _ a _ _ => a end.
Definition el_text (e : element) : option string :=
  match e with Element _ _ t _ => t end.

(** [e[i]] *)
Definition child (e : element) (i : nat) : py element :=
  match e with
  | Element _ _ _ cs =>
      match cs !! i with
      | Some c => ret c
      | None => raise IndexError "child index out of range"
      end
  end.

Fixpoint mapM {A B} (f : A -> py B) (l : list A) : py (list B) :=
  match l with
  | [] => ret []
  | x :: l' => y ← f x; ys ← mapM f l'; ret (y :: ys)
  end.

(** [dist_[i]] on a rank-1 array of floats *)
Definition vec_getitem (v : list Qc) (i : nat) : py Qc :=
  match v !! i with
  | Some x => ret x
  | None => raise IndexError "index out of bounds"
  end.

(** Lines 540 to 548 of [read_agisoft_xml_opencv]: the array built from
    [[k1, k2, p1, p2, k3, k4]], an entry [None] being Python's [None]. *)
Definition remap_dist (dist_ : list Qc) : py (list (option Qc)) :=
  k1 ← vec_getitem dist_ 0;
  k2 ← vec_getitem dist_ 1;
  p1 ← vec_getitem dist_ 3;
  p2 ← vec_getitem dist_ 2;
  '(k3, k4) ←
    (if decide (length dist_ = 5%nat) then
       k3 ← vec_getitem dist_ 4; ret (Some k3, None)
     else if decide (length dist_ = 6%nat) then
       k3 ← vec_getitem dist_ 4;
       k4 ← vec_getitem dist_ 5;
       ret (Some k3, Some k4)
     else ret (None, None));
  ret [Some k1; Some k2; Some p1; Some p2; k3; k4].

Section AgisoftXml.

(** Python's [int(s)] and [float(s)] on a string. *)
Variable py_int : string -> py Z.
Variable py_float : string -> py Qc.

(** [int(e.text)] *)
Definition int_of_text (t : option string) : py Z :=
  match t with
  | Some s => py_int s
  | None => raise TypeError "int() argument must be a string or a number"
  end.

(** [np.array(e.text.split(), dtype=float)] *)
Definition floats_of_text (t : option string) : py (list Qc) :=
  match t with
  | Some s => mapM py_float (str_split s)
  | None => raise AttributeError "'NoneType' object has no attribute 'split'"
  end.

(** Lines 528 to 539: what is read from the tree, [dist_] included. *)
Definition agisoft_fields (root : element)
  : py (Z * Z * ndarray * list Qc) :=
  r3 ← child root 3;
  camera_type ← dict_getitem (el_attrib r3) "type_id";
  _ ← py_assert (bool_decide (camera_type = "opencv-matrix"))
        "Invalid calibration file. Camera type must be 'opencv-matrix'";
  r0 ← child root 0;
  r1 ← child root 1;
  w ← int_of_text (el_text r1);
  r2 ← child root 2;
  h ← int_of_text (el_text r2);
  r3 ← child root 3;
  r33 ← child r3 3;
  k ← floats_of_text (el_text r33);
  K ← reshape2 (Arr1 float64 k) 3 3;
  r4 ← child root 4;
  r43 ← child r4 3;
  dist_ ← floats_of_text (el_text r43);
  ret (w, h, K, dist_).

(** [Calibration.read_agisoft_xml_opencv], from the parsed tree on. *)
Definition read_agisoft_xml_opencv (root : element)
  : py (Z * Z * ndarray * list (option Qc)) :=
  '(w, h, K, dist_) ← agisoft_fields root;
  dist ← remap_dist dist_;
  ret (w, h, K, dist).

End AgisoftXml.

(** ** Decidable equality of the values above, for evaluation in proofs *)

#[global] Instance exn_eq_dec : EqDecision exn.
Proof. solve_decision. Defined.
#[global] Instance log_record_eq_dec : EqDecision log_record.
Proof. solve_decision. Defined.
#[global] Instance outcome_eq_dec `{EqDecision A} : EqDecision (outcome A).
Proof. solve_decision. Defined.
#[global] Instance ndarray_eq_dec : EqDecision ndarray.
Proof. solve_decision. Defined.
#[global] Instance Camera_eq_dec : EqDecision Camera.
Proof. solve_decision. Defined.

(** Rows of a rank-2 array, and one row of it. *)
Definition rows_of (a : ndarray) : list (list Qc) :=
  match a with
  | Arr2 _ _ rows => rows
  | _ => []
  end.

Definition row_at (a : ndarray) (i : nat) : option (list Qc) :=
  rows_of a !! i.

(** The homogeneous-matrix invariant of the exterior orientation. *)
Definition homogeneous (m : ndarray) : Prop :=
  shape m = [4; 4]%nat ∧ row_at m 3 = Some [0; 0; 0; 1].

(** What [update_extrinsics] demands of its argument. *)
Definition valid_extrinsics (m : ndarray) : Prop :=
  shape m = [4; 4]%nat ∧ dtype_of m = float64
  ∧ row_at m 3 = Some [0; 0; 0; 1].

#[global] Instance valid_extrinsics_dec m : Decision (valid_extrinsics m).
Proof. unfold valid_extrinsics. apply _. Defined.

#[global] Instance homogeneous_dec m : Decision (homogeneous m).
Proof. unfold homogeneous. apply _. Defined.

(** ** Predicates used in the statements *)

(** The rotation block [m[0:3, 0:3]] and the translation column. *)
Definition rot_rows (m : ndarray) : list (list Qc) :=
  map (take 3) (take 3 (rows_of m)).

(** Row-orthonormality: [R @ R.T] is the identity. *)
Definition orthonormal (R : list (list Qc)) : Prop :=
  map (fun r => map (vdot r) R) R = rows_of (np_eye 3).

(** A pose or extrinsics matrix: 4 by 4, rotation block orthonormal with
    determinant one, any translation, last row [[0, 0, 0, 1]]. *)
Definition rigid (m : ndarray) : Prop :=
  wf m = true ∧ shape m = [4; 4]%nat
  ∧ orthonormal (rot_rows m) ∧ det_rows 3 (rot_rows m) = 1
  ∧ row_at m 3 = Some [0; 0; 0; 1].

#[global] Instance rigid_dec m : Decision (rigid m).
Proof. unfold rigid, orthonormal. apply _. Defined.

(** A rotation block made of 0, 1 and -1: with an orthonormal block, a
    rotation that maps axes to axes.  On such a block the products and sums
    of the conversions are exact in double precision too. *)
Definition axis_aligned (m : ndarray) : Prop :=
  Forall (Forall (fun x => x = 0 ∨ x = 1 ∨ x = - (1))) (rot_rows m).

#[global] Instance axis_aligned_dec m : Decision (axis_aligned m).
Proof. unfold axis_aligned. apply _. Defined.


Definition Qc_abs (x : Qc) : Qc := if decide (x < 0) then - x else x.

(** [np.allclose(a, b, rtol=0, atol=tol)] *)
Definition allclose (tol : Qc) (a b : ndarray) : Prop :=
  shape a = shape b
  ∧ Forall2 (fun x y => Qc_abs (x - y) <= tol) (ravel a) (ravel b).

Definition tol6 : Qc := Q2Qc 1e-6.

(** Integers as array entries. *)
Definition num (z : Z) : Qc := Q2Qc (inject_Z z).

(** ** Sample data *)

(** A camera rotated by a quarter turn about the optical axis. *)
Definition sample_pose : ndarray :=
  Arr2 float64 4
    [[0; - (1); 0; num 5];
     [1; 0; 0; num 7];
     [0; 0; 1; num 9];
     [0; 0; 0; 1]].

Definition sample_K : ndarray :=
  Arr2 float64 3
    [[num 1000; 0; num 960];
     [0; num 1000; num 540];
     [0; 0; 1]].

Definition sample_line : list Qc :=
  [num 1920; num 1080; num 1000; 0; num 960; 0; num 1000; num 540;
   0; 0; 1; Q2Qc 0.1; Q2Qc 0.05; Q2Qc 0.001; Q2Qc 0.002].

Definition sample_fs : filesystem := {[ "calib.txt" := [sample_line] ]}.

(** A camera built with [Camera(100, 50)]. *)
Definition sample_camera : Camera :=
  mkCamera (Arr0 int64 (num 100)) (Arr0 int64 (num 50)) None None (np_eye 4)
    None None.

(** Stand-ins for Python's [int] and [float] on plain decimal literals
    (digits with at most one point), used to run the XML loader. *)
Definition digit_of (c : ascii) : option Z :=
  let n := nat_of_ascii c in
  if ((48 <=? n) && (n <=? 57))%nat then Some (Z.of_nat (n - 48)) else None.

Fixpoint decimal_go (s : string) (dot : bool) (n : Z) (d : positive)
  : option Q :=
  match s with
  | EmptyString => Some (n # d)
  | String c s' =>
      if Ascii.eqb c "."
      then if dot then None else decimal_go s' true n d
      else match digit_of c with
           | Some x =>
               decimal_go s' dot (n * 10 + x) (if dot then d * 10 else d)%positive
           | None => None
           end
  end.

Definition sample_float (s : string) : py Qc :=
  match s with
  | EmptyString => raise ValueError "could not convert string to float"
  | _ => match decimal_go s false 0 1 with
         | Some q => ret (Q2Qc q)
         | None => raise ValueError "could not convert string to float"
         end
  end.

Definition sample_int (s : string) : py Z :=
  match s with
  | EmptyString => raise ValueError "invalid literal for int()"
  | _ => match decimal_go s true 0 1 with
         | Some q => ret (Qnum q)
         | None => raise ValueError "invalid literal for int()"
         end
  end.

Definition leaf (tag text : string) : element :=
  Element tag ∅ (Some text) [].

Definition opencv_matrix (tag rows cols data : string) : element :=
  Element tag {[ "type_id" := "opencv-matrix" ]} None
    [leaf "rows" rows; leaf "cols" cols; leaf "dt" "d"; leaf "data" data].

(** A calibration exported with five distortion coefficients. *)
Definition sample_xml : element :=
  Element "opencv_storage" ∅ None
    [leaf "calibration_Time" "Mon Jan 1 00:00:00 2024";
     leaf "image_Width" "1920";
     leaf "image_Height" "1080";
     opencv_matrix "Camera_Matrix" "3" "3" "1000 0 960 0 1000 540 0 0 1";
     opencv_matrix "Distortion_Coefficients" "5" "1" "0.1 0.05 0.001 0.002 0.3"].

(** EXIF tags of a picture whose camera the database below does not list. *)
Definition sample_exif : gmap string IfdTag :=
  {[ "EXIF FocalLength" := Build_IfdTag [num 35] "35";
     "Image Make" := Build_IfdTag [] "NIKON CORPORATION";
     "Image Model" := Build_IfdTag [] "NIKON D800";
     "EXIF ExifImageWidth" := Build_IfdTag [num 7360] "7360";
     "EXIF ExifImageLength" := Build_IfdTag [num 4912] "4912" ]}.

Definition sample_db : list sensor_row :=
  [Build_sensor_row "Canon" "Canon EOS 5D" (Q2Qc 35.8)].

Definition nikon_db : list sensor_row :=
  [Build_sensor_row "Nikon" "Nikon D800" (Q2Qc 35.9)].

(** The camera of the factorization example: [sample_K], no rotation,
    translation [[0, 0, 5]]. *)
Definition example_camera : Camera :=
  mkCamera (Arr0 int64 (num 1920)) (Arr0 int64 (num 1080)) (Some sample_K) None
    (Arr2 float64 4
       [[1; 0; 0; 0]; [0; 1; 0; 0]; [0; 0; 1; num 5]; [0; 0; 0; 1]])
    None None.

(** The same intrinsics, the camera turned by a quarter turn about its
    optical axis. *)
Definition turned_camera : Camera :=
  mkCamera (Arr0 int64 (num 1920)) (Arr0 int64 (num 1080)) (Some sample_K) None
    (Arr2 float64 4
       [[0; - (1); 0; 0]; [1; 0; 0; 0]; [0; 0; 1; num 5]; [0; 0; 0; 1]])
    None None.

(** An RQ factorization of [K @ R] for [turned_camera]: upper-triangular
    times orthogonal, the orthogonal factor being a reflection. *)
Definition turned_K0 : ndarray :=
  Arr2 float64 3
    [[num 1000; 0; num 960]; [0; - num 1000; num 540]; [0; 0; 1]].

Definition turned_R0 : ndarray :=
  Arr2 float64 3 [[0; - (1); 0]; [- (1); 0; 0]; [0; 0; 1]].

(** An RQ routine that answers with fixed factors. *)
Definition rq_const (K0 R0 : ndarray) (m : ndarray) : py (ndarray * ndarray) :=
  ret (K0, R0).

Definition upper_triangular (a : ndarray) : Prop :=
  forall i j, (j < i)%nat -> entry a i j = 0.


(** ** The remaining geometry helpers of [Camera] *)

(** [np.eye(N, M)] *)
Definition np_eye2 (n m : nat) : ndarray :=
  Arr2 float64 m
    (map (fun i => map (fun j => if decide (i = j) then 1 else 0) (seq 0 m))
       (seq 0 n)).

(** [target[r0:r1, c0:c1] = value] *)
Definition setslice2 (target : ndarray) (r0 r1 c0 c1 : nat) (value : ndarray)
  : py ndarray :=
  match target with
  | Arr2 dt nc rows =>
      let ht := slice_len r0 (Some r1) (length rows) in
      let wd := slice_len c0 (Some c1) nc in
      match broadcast_to2 value ht wd with
      | Some f =>
          ret (Arr2 dt nc
                 (imap (fun i row =>
                          if bool_decide (r0 <= i < r0 + ht)%nat
                          then take c0 row ++ map (f (i - r0)%nat) (seq 0 wd)
                               ++ drop c1 row
                          else row)
                    rows))
      | None => raise ValueError "could not broadcast input array"
      end
  | _ => raise IndexError "too many indices for array"
  end.

Definition msg_pose_R : string :=
  "Wrong dimension of the R matrix. It must be a 3x3 numpy array".
Definition msg_pose_C : string :=
  "Wrong dimension of the C vector. It must be a 3x1 or a 1x3 numpy array".

(** [Camera.build_pose_matrix] *)
Definition build_pose_matrix (R C : ndarray) : py ndarray :=
  if bool_decide (shape R ≠ [3; 3]%nat) then raise ValueError msg_pose_R
  else
    C ← (if bool_decide (shape C = [3]%nat) || bool_decide (shape C = [1; 3]%nat)
         then ret (transpose C)
         else if bool_decide (shape C ≠ [3; 1]%nat)
              then raise ValueError msg_pose_C
              else ret C);
    let pose := np_eye 4 in
    pose ← setslice2 pose 0 3 0 3 R;
    setslice2 pose 0 3 3 4 C.

(** [Camera.make_mat_homogeneous]; [n, m = mat.shape] needs two axes. *)
Definition make_mat_homogeneous (mat : ndarray) : py ndarray :=
  match shape mat with
  | [n; m] =>
      let mat_h := np_eye2 (n + 1) m in
      setslice2 mat_h 0 n 0 m mat
  | _ => raise ValueError "not enough values to unpack (expected 2)"
  end.

(** Row [n] of [np.eye(., m)]. *)
Definition eye_row (n m : nat) : list Qc :=
  map (fun j => if decide (n = j) then 1 else 0) (seq 0 m).

(** The nonzero values of [sign], and all three: [true] for a positive
    argument, [false] for a negative one, [None] for zero. *)
Definition sgn (b : bool) : Qc := if b then 1 else - (1).

Definition sg (o : option bool) : Qc :=
  match o with
  | Some b => sgn b
  | None => 0
  end.

(** [np.diag([s0, s1, s2])] *)
Definition diag3 (s0 s1 s2 : Qc) : ndarray :=
  Arr2 float64 3 [[s0; 0; 0]; [0; s1; 0]; [0; 0; s2]].

(** A string with a white-space character, and one made of white space
    only (the empty string included). *)
Definition has_space (s : string) : bool :=
  existsb is_space (list_ascii_of_string s).

Definition blank (s : string) : bool :=
  forallb is_space (list_ascii_of_string s).

(** A computation that raises no [OSError]. *)
Definition non_os {A} (m : py A) : Prop :=
  forall e l, m = (Raise e, l) -> issubclass (exn_cls e) OSError = false.

(** A camera whose calibration matrix has a zero focal length [fx], and
    a calibration tree whose camera matrix is of another type. *)
Definition flat_K : ndarray :=
  Arr2 float64 3 [[0; 0; num 960]; [0; num 1000; num 540]; [0; 0; 1]].

Definition flat_camera : Camera :=
  mkCamera (Arr0 int64 (num 1920)) (Arr0 int64 (num 1080)) (Some flat_K) None
    (np_eye 4) None None.

Definition fisheye_xml : list element :=
  [leaf "calibration_Time" "Mon Jan 1 00:00:00 2024";
   leaf "image_Width" "1920";
   leaf "image_Height" "1080";
   Element "Camera_Matrix" {[ "type_id" := "fisheye" ]} None []].

(** ** The pose conversions in IEEE double arithmetic

    The two conversions once more, on 4 by 4 arrays of doubles, every
    operation rounding as NumPy's does.  How the linear-algebra backend
    accumulates a dot product is not fixed by NumPy and may differ from one
    call to the next, so it is a parameter of each conversion. *)

Module F64.

#[local] Open Scope float_scope.
#[local] Set Warnings "-inexact-float".

Definition fmatrix := list (list float).

(** The exact value of a finite double. *)
Definition Q_of_float (x : float) : option Q :=
  match Prim2SF x with
  | S754_zero _ => Some 0%Q
  | S754_finite sg m e =>
      let z := if sg then Zneg m else Zpos m in
      Some (if (0 <=? e)%Z then inject_Z (z * 2 ^ e)
            else (z # Pos.pow 2 (Z.to_pos (- e))))
  | _ => None
  end.

(** Fused multiply-add, [x * y + z] rounded once (to nearest, ties to
    even), from the exact integer significands. *)
Definition fma (x y z : float) : float :=
  match Prim2SF x, Prim2SF y, Prim2SF z with
  | S754_finite sx mx ex, S754_finite sy my ey, S754_finite sz mz ez =>
      let e := Z.min (ex + ey) ez in
      let p := (Zpos mx * Zpos my * 2 ^ (ex + ey - e))%Z in
      let p := if xorb sx sy then (- p)%Z else p in
      let q := (Zpos mz * 2 ^ (ez - e))%Z in
      let q := if sz then (- q)%Z else q in
      SF2Prim (binary_normalize prec emax (p + q) e false)
  | _, _, _ => x * y + z
  end.

(** How a dot product is accumulated: every product rounded and then
    added, or fused into the running sum. *)
Inductive accumulation := Rounded | Fused.

Definition mac (s : accumulation) (acc x y : float) : float :=
  match s with
  | Rounded => acc + x * y
  | Fused => fma x y acc
  end.

(** The terms are taken first to last, or last to first. *)
Definition fdot (s : accumulation) (backwards : bool) (u v : list float)
  : float :=
  let terms := combine u v in
  fold_left (fun acc xy => mac s acc (fst xy) (snd xy))
    (if backwards then rev terms else terms) 0.

(** [a.T] *)
Definition ftranspose (a : fmatrix) : fmatrix :=
  map (fun j => map (fun r => nth j r 0) a) (seq 0 (length (hd [] a))).

(** [np.dot(a, b)] and [a @ b] on arrays of rank 2 *)
Definition fmatmul (s : accumulation) (backwards : bool) (a b : fmatrix)
  : fmatrix :=
  map (fun r => map (fdot s backwards r) (ftranspose b)) a.

(** [-a] *)
Definition fneg (a : fmatrix) : fmatrix := map (map PrimFloat.opp) a.

(** [a[r0:r1, c0:c1]] *)
Definition fslice (a : fmatrix) (r0 r1 c0 c1 : nat) : fmatrix :=
  map (fun r => take (c1 - c0) (drop c0 r)) (take (r1 - r0) (drop r0 a)).

Definition feye3 : fmatrix := [[1; 0; 0]; [0; 1; 0]; [0; 0; 1]].

(** [Camera.build_block_matrix]; [None] is Python's [None]. *)
Definition build_block_matrix (mat : fmatrix) : option fmatrix :=
  let n := length (hd [] mat) in
  if Nat.eqb n 3 then
    Some (map (fun r => r ++ [0]) mat ++ [[0; 0; 0; 1]])
  else if Nat.eqb n 1 then
    Some (map (fun rc => fst rc ++ snd rc) (combine feye3 mat)
          ++ [[0; 0; 0; 1]])
  else None.

(** A product one of whose operands may be [None] (a [TypeError] then). *)
Definition fmatmul_opt (s : accumulation) (backwards : bool)
    (a b : option fmatrix) : option fmatrix :=
  match a, b with
  | Some x, Some y => Some (fmatmul s backwards x y)
  | _, _ => None
  end.

(** [Camera.extrinsics_to_pose] *)
Definition extrinsics_to_pose (s : accumulation) (backwards : bool)
    (extrinsics : fmatrix) : option fmatrix :=
  let R := fslice extrinsics 0 3 0 3 in
  let t := fslice extrinsics 0 3 3 4 in
  let Rc := ftranspose R in
  let C := fneg (fmatmul s backwards Rc t) in
  let Rc_block := build_block_matrix Rc in
  let C_block := build_block_matrix C in
  fmatmul_opt s backwards C_block Rc_block.

(** [Camera.pose_to_extrinsics] *)
Definition pose_to_extrinsics (s : accumulation) (backwards : bool)
    (pose : fmatrix) : option fmatrix :=
  let Rc := fslice pose 0 3 0 3 in
  let C := fslice pose 0 3 3 4 in
  let R := ftranspose Rc in
  let t := fmatmul s backwards (fneg R) C in
  let t_block := build_block_matrix t in
  let R_block := build_block_matrix R in
  fmatmul_opt s backwards t_block R_block.



Definition entry (a : fmatrix) (i j : nat) : float := nth j (nth i a []) 0.

(** The exact values of the entries, when all are finite. *)
Definition exact_row (r : list float) : option (list Q) :=
  fold_right (fun x acc => match Q_of_float x, acc with
                           | Some q, Some l => Some (q :: l)
                           | _, _ => None
                           end) (Some []) r.

Definition exact (a : fmatrix) : option (list (list Q)) :=
  fold_right (fun r acc => match exact_row r, acc with
                           | Some q, Some l => Some (q :: l)
                           | _, _ => None
                           end) (Some []) a.






End F64.

(** * Properties *)

Ltac by_decide :=
  match goal with
  | |- ?G => apply (bool_decide_eq_true_1 G); vm_compute; reflexivity
  end.

(** ** The computation monad *)

Lemma mbind_ret {A B} (a : A) (k : A -> py B) : (ret a ≫= k) = k a.
Proof.
  unfold mbind, py_bind, bind, ret. destruct (k a) as [r l]. reflexivity.
Qed.

Lemma mbind_raise {A B} c m (k : A -> py B) : (raise c m ≫= k) = raise c m.
Proof. reflexivity. Qed.

Lemma bind_return_inv {A B} (m : py A) (k : A -> py B) b :
  bind m k = (Return b, []) ->
  exists a, m = (Return a, []) /\ k a = (Return b, []).
Proof.
  unfold bind. destruct m as [[a|e] l1]; [|discriminate].
  destruct (k a) as [r l2] eqn:Hk. intros H. injection H as -> Hl.
  apply app_eq_nil in Hl. destruct Hl as [-> ->]. exists a. auto.
Qed.

(** ** GeometryOps: [build_block_matrix] *)

Lemma build_block_matrix_3x3 dt a b c d e f g h i :
  build_block_matrix (Arr2 dt 3 [[a; b; c]; [d; e; f]; [g; h; i]])
  = (Return (Some (Arr2 float64 4
               [[a; b; c; 0]; [d; e; f; 0]; [g; h; i; 0]; [0; 0; 0; 1]])), []).
Proof. destruct dt; reflexivity. Qed.

Lemma build_block_matrix_3x1 dt x y z :
  build_block_matrix (Arr2 dt 1 [[x]; [y]; [z]])
  = (Return (Some (Arr2 float64 4
               [[1; 0; 0; x]; [0; 1; 0; y]; [0; 0; 1; z]; [0; 0; 0; 1]])), []).
Proof. destruct dt; reflexivity. Qed.

Lemma build_block_matrix_other dt nc rows :
  nc <> 3%nat -> nc <> 1%nat ->
  build_block_matrix (Arr2 dt nc rows) = (Return None, [LogError msg_unknown]).
Proof.
  intros H3 H1. unfold build_block_matrix, shape_at.
  change (shape (Arr2 dt nc rows) !! 1%nat) with (Some nc). cbv beta iota.
  rewrite mbind_ret. rewrite !decide_False by assumption. reflexivity.
Qed.

Lemma build_block_matrix_rank1 dt v :
  raised (build_block_matrix (Arr1 dt v)) = Some IndexError.
Proof. reflexivity. Qed.

(** C9, as the code has it: [build_block_matrix] returns
    [[block, 0], [0, 0, 0, 1]] for every 3 by 3 input and
    [[I3, v], [0, 0, 0, 1]] for every 3 by 1 input; for every rank-2 input
    whose number of columns is neither 3 nor 1 it raises nothing: it logs
    one error record and returns [None]. *)
Theorem build_block_matrix_shapes :
  (forall dt a b c d e f g h i,
      build_block_matrix (Arr2 dt 3 [[a; b; c]; [d; e; f]; [g; h; i]])
      = (Return (Some (Arr2 float64 4
                   [[a; b; c; 0]; [d; e; f; 0]; [g; h; i; 0]; [0; 0; 0; 1]])),
         []))
  /\ (forall dt x y z,
        build_block_matrix (Arr2 dt 1 [[x]; [y]; [z]])
        = (Return (Some (Arr2 float64 4
                     [[1; 0; 0; x]; [0; 1; 0; y]; [0; 0; 1; z]; [0; 0; 0; 1]])),
           []))
  /\ (forall dt nc rows,
        nc <> 3%nat -> nc <> 1%nat ->
        build_block_matrix (Arr2 dt nc rows)
        = (Return None, [LogError msg_unknown])).
Proof.
  split; [|split].
  - apply build_block_matrix_3x3.
  - apply build_block_matrix_3x1.
  - apply build_block_matrix_other.
Qed.

Lemma build_block_matrix_shapes_witness :
  (2 <> 3 /\ 2 <> 1)%nat
  /\ build_block_matrix (Arr2 float64 2 [[1; 0]; [0; 1]])
     = (Return None, [LogError msg_unknown]).
Proof.
  assert (H3 : (2 <> 3)%nat) by lia. assert (H1 : (2 <> 1)%nat) by lia.
  split; [split; assumption|].
  exact (proj2 (proj2 build_block_matrix_shapes) float64 2%nat _ H3 H1).
Defined.

(** C9, as stated, fails on a 2 by 2 input: no exception is raised, the
    call returns [None] after logging. *)
Lemma build_block_matrix_2x2_returns_None :
  build_block_matrix (Arr2 float64 2 [[1; 0]; [0; 1]])
  = (Return None, [LogError msg_unknown])
  /\ ~ (exists msg l, build_block_matrix (Arr2 float64 2 [[1; 0]; [0; 1]])
                     = (Raise (Exn AssertionError msg), l)).
Proof.
  split; [reflexivity|]. intros (msg & l & H). discriminate H.
Qed.

(** ** GeometryOps: [Rt_to_extrinsics] *)

Lemma Rt_to_extrinsics_vector dt dt' a b c d e f g h i x y z :
  Rt_to_extrinsics (Arr2 dt 3 [[a; b; c]; [d; e; f]; [g; h; i]])
    (Arr1 dt' [x; y; z])
  = (Return (Arr2 float64 4
       [[a; b; c; x]; [d; e; f; y]; [g; h; i; z]; [0; 0; 0; 1]]), []).
Proof.
  destruct dt, dt'; cbv -[Qcplus Qcmult Qcopp Q2Qc]; repeat f_equal; ring.
Qed.

Lemma Rt_to_extrinsics_column dt dt' a b c d e f g h i x y z :
  Rt_to_extrinsics (Arr2 dt 3 [[a; b; c]; [d; e; f]; [g; h; i]])
    (Arr2 dt' 1 [[x]; [y]; [z]])
  = (Return (Arr2 float64 4
       [[a; b; c; x]; [d; e; f; y]; [g; h; i; z]; [0; 0; 0; 1]]), []).
Proof.
  destruct dt, dt'; cbv -[Qcplus Qcmult Qcopp Q2Qc]; repeat f_equal; ring.
Qed.

Lemma Rt_to_extrinsics_long_vector R dt x y z u :
  raised (Rt_to_extrinsics R (Arr1 dt [x; y; z; u])) = Some AssertionError.
Proof. reflexivity. Qed.

(** A 3 by 3 array passed as [t] holds nine elements and is not refused. *)
Lemma Rt_to_extrinsics_square_t_accepted :
  raised (Rt_to_extrinsics (np_eye 3) (np_zeros2 3 3)) = None.
Proof. reflexivity. Qed.

(** C8, the code at a row vector: whatever [R] is, a translation of shape
    (1, 3) enters the normalising branch, where [t.shape[0] == 3] is false,
    and the call ends in an [AssertionError] instead of a 4 by 4 matrix. *)
Theorem Rt_to_extrinsics_rejects_row (R : ndarray) (dt : dtype) (x y z : Qc) :
  Rt_to_extrinsics R (Arr2 dt 3 [[x; y; z]])
  = (Raise (Exn AssertionError "Invalid translation vector"), []).
Proof. reflexivity. Qed.

(** ** GeometryOps: extrinsics and pose *)

Lemma Qc_abs_diag x tol : 0 <= tol -> Qc_abs (x - x) <= tol.
Proof.
  intros H. replace (x - x) with 0 by ring.
  unfold Qc_abs. rewrite decide_False; [exact H|].
  intros Hlt. exact (Qclt_not_eq _ _ Hlt eq_refl).
Qed.


Lemma allclose_same_values tol d1 d2 nc rows :
  0 <= tol -> allclose tol (Arr2 d1 nc rows) (Arr2 d2 nc rows).
Proof.
  intros H. split; [reflexivity|]. simpl.
  induction (concat rows); constructor; auto using Qc_abs_diag.
Qed.

Lemma rows3_inj {A} (x00 x01 x02 x10 x11 x12 x20 x21 x22
                      y00 y01 y02 y10 y11 y12 y20 y21 y22 : A) :
  [[x00; x01; x02]; [x10; x11; x12]; [x20; x21; x22]]
  = [[y00; y01; y02]; [y10; y11; y12]; [y20; y21; y22]] ->
  (x00 = y00 /\ x01 = y01 /\ x02 = y02)
  /\ (x10 = y10 /\ x11 = y11 /\ x12 = y12)
  /\ (x20 = y20 /\ x21 = y21 /\ x22 = y22).
Proof. intros H. injection H. intros. subst. auto 10. Qed.

(** A rigid matrix written out entry by entry. *)
Lemma rigid_inv m :
  rigid m ->
  exists dt a00 a01 a02 a10 a11 a12 a20 a21 a22 c0 c1 c2,
    m = Arr2 dt 4 [[a00; a01; a02; c0]; [a10; a11; a12; c1];
                   [a20; a21; a22; c2]; [0; 0; 0; 1]]
    /\ orthonormal [[a00; a01; a02]; [a10; a11; a12]; [a20; a21; a22]].
Proof.
  intros (Hwf & Hs & Ho & _ & Hr).
  destruct m as [dt x|dt v|dt nc rows]; try discriminate Hs.
  simpl in Hs. injection Hs as Hlen ->.
  unfold row_at in Hr. simpl in Hr, Hwf.
  destruct rows as [|r0 [|r1 [|r2 [|r3 [|]]]]]; try discriminate Hlen.
  simpl in Hr. injection Hr as ->.
  simpl in Hwf. rewrite !andb_true_iff in Hwf.
  destruct Hwf as (H0 & H1 & H2 & _).
  apply Nat.eqb_eq in H0, H1, H2.
  destruct r0 as [|a00 [|a01 [|a02 [|c0 [|]]]]]; try discriminate H0.
  destruct r1 as [|a10 [|a11 [|a12 [|c1 [|]]]]]; try discriminate H1.
  destruct r2 as [|a20 [|a21 [|a22 [|c2 [|]]]]]; try discriminate H2.
  exists dt, a00, a01, a02, a10, a11, a12, a20, a21, a22, c0, c1, c2.
  split; [reflexivity|exact Ho].
Qed.

Lemma rigid_rows m : rigid m -> m = Arr2 (dtype_of m) 4 (rows_of m).
Proof.
  intros (_ & Hs & _).
  destruct m as [dt x|dt v|dt nc rows]; try discriminate Hs.
  simpl in *. congruence.
Qed.





Lemma extrinsics_to_pose_formula dt a00 a01 a02 c0 a10 a11 a12 c1
      a20 a21 a22 c2 (last : list Qc) :
  extrinsics_to_pose_of
    (Arr2 dt 4 [[a00; a01; a02; c0]; [a10; a11; a12; c1];
                [a20; a21; a22; c2]; last])
  = (Return (Arr2 float64 4
       [[a00; a10; a20; - (a00 * c0 + a10 * c1 + a20 * c2)];
        [a01; a11; a21; - (a01 * c0 + a11 * c1 + a21 * c2)];
        [a02; a12; a22; - (a02 * c0 + a12 * c1 + a22 * c2)];
        [0; 0; 0; 1]]), []).
Proof.
  destruct dt; cbv -[Qcplus Qcmult Qcopp Q2Qc]; repeat f_equal; ring.
Qed.







(** ** CameraModel *)

Lemma array_equal_row dt r :
  array_equal (Arr1 dt r) homogeneous_row = bool_decide (r = [0; 0; 0; 1]).
Proof.
  unfold array_equal, homogeneous_row, np_array1. simpl.
  destruct (bool_decide_reflect (r = [0; 0; 0; 1])) as [->|Hne].
  - reflexivity.
  - apply andb_false_r.
Qed.

(** The three assertions of [update_extrinsics], in the order they run. *)
Lemma update_extrinsics_eval self m :
  update_extrinsics self m =
    if decide (shape m = [4; 4]%nat) then
      if decide (dtype_of m = float64) then
        if decide (row_at m 3 = Some [0; 0; 0; 1])
        then (Return (set_extrinsics self m), [])
        else (Raise (Exn AssertionError msg_homogeneous), [])
      else (Raise (Exn AssertionError msg_dtype), [])
    else (Raise (Exn AssertionError msg_shape), []).
Proof.
  unfold update_extrinsics.
  destruct (decide (shape m = [4; 4]%nat)) as [Hs|Hs].
  2:{ rewrite (bool_decide_eq_false_2 (shape m = _)) by exact Hs.
      reflexivity. }
  rewrite (bool_decide_eq_true_2 (shape m = _)) by exact Hs.
  destruct (decide (dtype_of m = float64)) as [Hd|Hd].
  2:{ rewrite (bool_decide_eq_false_2 (dtype_of m = _)) by exact Hd.
      reflexivity. }
  rewrite (bool_decide_eq_true_2 (dtype_of m = _)) by exact Hd.
  destruct m as [dt x|dt v|dt nc rows]; try discriminate Hs.
  simpl in Hs. injection Hs as Hlen Hnc.
  unfold row_at, rows_of, getrow.
  destruct (rows !! 3%nat) as [r|] eqn:Hr.
  2:{ apply lookup_ge_None in Hr. lia. }
  cbn. rewrite array_equal_row.
  destruct (decide (Some r = Some [0; 0; 0; 1])) as [He|He].
  - injection He as ->. rewrite bool_decide_eq_true_2 by reflexivity.
    reflexivity.
  - rewrite bool_decide_eq_false_2 by congruence. reflexivity.
Qed.

(** C2: [update_extrinsics] succeeds exactly on the 4 by 4 double-precision
    arrays whose last row is [[0, 0, 0, 1]], and then stores its argument
    as the extrinsics; on every other array it raises the assertion error
    (the design document's ValidationError) and logs nothing.  A 3 by 3
    array, a single-precision array and a last row [[0, 0, 0, 1e-5]] are
    refused. *)
Theorem update_extrinsics_validates (self : Camera) (m : ndarray) :
  (valid_extrinsics m ->
     update_extrinsics self m = (Return (set_extrinsics self m), [])
     /\ extrinsics (set_extrinsics self m) = m)
  /\ (~ valid_extrinsics m ->
      exists msg,
        update_extrinsics self m = (Raise (Exn AssertionError msg), []))
  /\ raised (update_extrinsics self (np_eye 3)) = Some AssertionError
  /\ raised (update_extrinsics self (Arr2 float32 4 (rows_of (np_eye 4))))
     = Some AssertionError
  /\ raised (update_extrinsics self
               (Arr2 float64 4
                  [[1; 0; 0; 0]; [0; 1; 0; 0]; [0; 0; 1; 0];
                   [0; 0; 0; Q2Qc 1e-5]]))
     = Some AssertionError.
Proof.
  split; [|split; [|split; [|split]]].
  - intros (Hs & Hd & Hr). rewrite update_extrinsics_eval.
    rewrite !decide_True by assumption. split; reflexivity.
  - intros Hn. rewrite update_extrinsics_eval.
    repeat case_decide; try (eexists; reflexivity).
    exfalso. apply Hn. repeat split; assumption.
  - rewrite update_extrinsics_eval. reflexivity.
  - rewrite update_extrinsics_eval. reflexivity.
  - rewrite update_extrinsics_eval. reflexivity.
Qed.

Lemma update_extrinsics_validates_witness :
  valid_extrinsics sample_pose
  /\ update_extrinsics sample_camera sample_pose
     = (Return (set_extrinsics sample_camera sample_pose), []).
Proof.
  assert (H : valid_extrinsics sample_pose) by (vm_compute; auto).
  split; [exact H|].
  apply (proj1 (update_extrinsics_validates sample_camera sample_pose) H).
Defined.

(** The invariant along the paths that keep it. *)
Lemma np_eye4_homogeneous : homogeneous (np_eye 4).
Proof. split; reflexivity. Qed.

Lemma reset_EO_identity self : extrinsics (reset_EO self) = np_eye 4.
Proof. reflexivity. Qed.

Lemma Camera_init_default fs w h K dist :
  Camera_init fs w h K dist None None None None
  = (Return (mkCamera w h K dist (np_eye 4) None None), []).
Proof. reflexivity. Qed.

Lemma Camera_init_Rt fs w h K dist dt dt' a b c d e f g i j x y z :
  Camera_init fs w h K dist
    (Some (Arr2 dt 3 [[a; b; c]; [d; e; f]; [g; i; j]]))
    (Some (Arr1 dt' [x; y; z])) None None
  = (Return (mkCamera w h K dist
               (Arr2 float64 4
                  [[a; b; c; x]; [d; e; f; y]; [g; i; j; z]; [0; 0; 0; 1]])
               None None), []).
Proof.
  unfold Camera_init. rewrite Rt_to_extrinsics_vector. reflexivity.
Qed.

Lemma update_extrinsics_homogeneous self m cam l :
  update_extrinsics self m = (Return cam, l) -> homogeneous (extrinsics cam).
Proof.
  rewrite update_extrinsics_eval. repeat case_decide; try discriminate.
  intros Heq. injection Heq as <- _. split; assumption.
Qed.

Lemma update_K_extrinsics self k :
  extrinsics (update_K self k) = extrinsics self.
Proof. reflexivity. Qed.

Lemma update_dist_extrinsics self d :
  extrinsics (update_dist self d) = extrinsics self.
Proof. reflexivity. Qed.

(** C5, the code at an explicit [extrinsics] argument: the constructor
    stores whatever array it is given, without the checks that
    [update_extrinsics] makes.  With a 3 by 3 array of zeros the new camera
    holds extrinsics that are not 4 by 4, which [update_extrinsics] itself
    refuses for the same camera. *)
Theorem Camera_init_stores_any_extrinsics fs w h K dist (e : ndarray) :
  Camera_init fs w h K dist None None (Some e) None
  = (Return (mkCamera w h K dist e None None), [])
  /\ extrinsics (mkCamera w h K dist (np_zeros2 3 3) None None)
     = np_zeros2 3 3
  /\ ~ homogeneous (np_zeros2 3 3)
  /\ raised (update_extrinsics (mkCamera w h K dist (np_eye 4) None None)
               (np_zeros2 3 3)) = Some AssertionError.
Proof.
  split; [reflexivity|]. split; [reflexivity|]. split.
  - intros [Hs _]. discriminate Hs.
  - rewrite update_extrinsics_eval. reflexivity.
Qed.

(** ** CalibrationLoader: plain-text format *)

Lemma np_loadtxt_line (toks : list Qc) :
  (2 <= length toks)%nat -> np_loadtxt [toks] = ret (Arr1 float64 toks).
Proof.
  intros H. unfold np_loadtxt.
  rewrite filter_cons_True by (intros ->; simpl in H; lia).
  rewrite filter_nil.
  destruct toks as [|x [|y l]]; simpl in H; try lia. reflexivity.
Qed.

(** A one-line file of at least eleven tokens: accepted with 15, 16 or 19
    tokens, refused with the grammar message otherwise. *)
Lemma read_opencv_calibration_line fs path (w h : Qc) (rest : list Qc) :
  fs !! path = Some [w :: h :: rest] ->
  (9 <= length rest)%nat ->
  read_opencv_calibration fs path false
  = if bool_decide (length rest = 13 \/ length rest = 14 \/ length rest = 17)%nat
    then (Return (Arr0 float64 w, Arr0 float64 h,
                  Arr2 float64 3 (chunks 3 3 (take 9 rest)),
                  Arr1 float64 (drop 9 rest)), [])
    else (Raise (Exn ValueError msg_grammar), []).
Proof.
  intros Hfs Hlen. unfold read_opencv_calibration. rewrite Hfs.
  rewrite np_loadtxt_line by (simpl; lia).
  rewrite ?mbind_ret. unfold getitem.
  change ((w :: h :: rest) !! 0%nat) with (Some w). rewrite ?mbind_ret.
  change ((w :: h :: rest) !! 1%nat) with (Some h). rewrite ?mbind_ret.
  unfold getslice, py_slice. rewrite ?mbind_ret.
  change (drop 2 (w :: h :: rest)) with rest.
  change (drop 11 (w :: h :: rest)) with (drop 9 rest).
  replace (11 - 2)%nat with 9%nat by reflexivity.
  unfold reshape2. cbn [ravel astype_float dtype_of].
  rewrite (decide_True (P := length (take 9 rest) = (3 * 3)%nat))
    by (rewrite length_take; lia).
  rewrite ?mbind_ret. cbn [np_len shape length]. rewrite ?mbind_ret.
  destruct (decide (S (S (length rest)) = 15%nat)) as [H15|H15].
  { rewrite bool_decide_eq_true_2 by lia. rewrite !mbind_ret.
    cbn [astype_float].
    rewrite (take_ge (drop 9 rest)) by (rewrite length_drop; lia).
    reflexivity. }
  destruct (decide (S (S (length rest)) = 16%nat)) as [H16|H16].
  { rewrite bool_decide_eq_true_2 by lia. rewrite !mbind_ret.
    cbn [astype_float].
    rewrite (take_ge (drop 9 rest)) by (rewrite length_drop; lia).
    reflexivity. }
  destruct (decide (S (S (length rest)) = 19%nat)) as [H19|H19].
  { rewrite bool_decide_eq_true_2 by lia. rewrite !mbind_ret.
    cbn [astype_float].
    rewrite (take_ge (drop 9 rest)) by (rewrite length_drop; lia).
    reflexivity. }
  rewrite bool_decide_eq_false_2 by lia. reflexivity.
Qed.

Lemma read_opencv_calibration_missing_file fs path verbose :
  fs !! path = None ->
  read_opencv_calibration fs path verbose
  = (Raise (Exn ValueError "Calibration filed does not exist."), []).
Proof. intros H. unfold read_opencv_calibration. rewrite H. reflexivity. Qed.

(** The 15-token line of the design document. *)
Lemma read_opencv_calibration_sample :
  read_opencv_calibration sample_fs "calib.txt" false
  = (Return (Arr0 float64 (num 1920), Arr0 float64 (num 1080), sample_K,
             Arr1 float64 [Q2Qc 0.1; Q2Qc 0.05; Q2Qc 0.001; Q2Qc 0.002]), []).
Proof. by_decide. Qed.

Lemma read_opencv_calibration_14_tokens :
  read_opencv_calibration {[ "calib.txt" := [take 14 sample_line] ]}
    "calib.txt" false
  = (Raise (Exn ValueError msg_grammar), []).
Proof. by_decide. Qed.

(** A one-line file of fewer than eleven tokens never reaches the length
    test: it fails earlier, with another error. *)
Lemma read_opencv_calibration_short fs path (toks : list Qc) :
  fs !! path = Some [toks] ->
  (length toks < 11)%nat ->
  exists e,
    read_opencv_calibration fs path false = (Raise e, [])
    /\ (exn_cls e = IndexError \/ exn_cls e = ValueError)
    /\ exn_msg e <> msg_grammar.
Proof.
  intros Hfs Hlen. unfold read_opencv_calibration. rewrite Hfs.
  do 11 (destruct toks as [|? toks];
         [eexists; split; [reflexivity|split; [auto|discriminate]]|]).
  simpl in Hlen. lia.
Qed.

(** C4, the code on short lines: the two sizes and the intrinsic matrix
    are taken out of the data before its length is looked at.  A file
    holding the single token 1920 ends in an [IndexError]; the first ten
    tokens of the sample line end in the [ValueError] of [reshape], whose
    text is not the grammar message. *)
Theorem read_opencv_calibration_short_line :
  raised (read_opencv_calibration {[ "calib.txt" := [[num 1920]] ]}
            "calib.txt" false) = Some IndexError
  /\ (exists msg,
        read_opencv_calibration {[ "calib.txt" := [take 10 sample_line] ]}
          "calib.txt" false = (Raise (Exn ValueError msg), [])
        /\ msg <> msg_grammar).
Proof.
  split; [by_decide|].
  exists "cannot reshape array". split; [by_decide|discriminate].
Qed.

(** ** CameraModel: [read_calibration_from_file] *)

Lemma read_calibration_from_file_fields fs self path w h k d l :
  read_opencv_calibration fs path false = (Return (w, h, k, d), l) ->
  read_calibration_from_file fs self path
  = (Return (mkCamera (_w self) (_h self) (Some k) (Some d) (_extrinsics self)
               (Some w) (Some h)), l).
Proof.
  intros H. unfold read_calibration_from_file, mbind, py_bind, bind.
  rewrite H. simpl. rewrite app_nil_r. reflexivity.
Qed.

Lemma read_calibration_from_file_extrinsics fs self path cam l :
  read_calibration_from_file fs self path = (Return cam, l) ->
  extrinsics cam = extrinsics self.
Proof.
  unfold read_calibration_from_file, mbind, py_bind, bind.
  destruct (read_opencv_calibration fs path false) as [[[[[w h] k] d]|e] l1];
    [|discriminate].
  simpl. intros H. injection H as <- _. reflexivity.
Qed.

(** C10, the code after a successful read: [K] and [dist] hold the parsed
    values, but the parsed size went to the attributes [_width] and
    [_height], which no accessor reads; [width] and [height] still answer
    the constructor's 100 and 50, not the file's 1920 and 1080. *)
Theorem read_calibration_from_file_keeps_size :
  exists cam w h k d,
    read_opencv_calibration sample_fs "calib.txt" false
    = (Return (w, h, k, d), [])
    /\ read_calibration_from_file sample_fs sample_camera "calib.txt"
       = (Return cam, [])
    /\ K cam = Some k /\ dist cam = Some d
    /\ width cam = Arr0 int64 (num 100) /\ height cam = Arr0 int64 (num 50)
    /\ w = Arr0 float64 (num 1920) /\ h = Arr0 float64 (num 1080)
    /\ width cam <> w /\ height cam <> h.
Proof.
  eexists _, _, _, _, _.
  split; [exact read_opencv_calibration_sample|].
  split; [exact (read_calibration_from_file_fields _ _ _ _ _ _ _ _
                   read_opencv_calibration_sample)|].
  repeat split; discriminate.
Qed.

(** ** CalibrationLoader: EXIF estimate *)

Lemma get_intrinsics_from_exif_missing_focal csv (exif : gmap string IfdTag) :
  exif !! "EXIF FocalLength" = None ->
  get_intrinsics_from_exif csv exif
  = (Raise (Exn KeyError "EXIF FocalLength"), []).
Proof.
  intros H. unfold get_intrinsics_from_exif, dict_getitem. rewrite H.
  reflexivity.
Qed.

(** The handlers do run on an [OSError], such as a missing database file. *)
Lemma get_intrinsics_from_exif_no_database :
  get_intrinsics_from_exif (raise FileNotFoundError "sensor_database.csv")
    sample_exif
  = (Return None,
     [LogError "Unable to get sensor size in mm from sensor database"]).
Proof. by_decide. Qed.

Lemma get_intrinsics_from_exif_sample :
  returned (get_intrinsics_from_exif (ret nikon_db) sample_exif)
  = Some (Some (num 7360, num 4912,
                Arr2 float64 3
                  [[Q2Qc (2576000 # 359); 0; num 3680];
                   [0; Q2Qc (2576000 # 359); num 2456];
                   [0; 0; 1]],
                Arr1 float64 [0; 0; 0; 0; 0])).
Proof. by_decide. Qed.

(** C7, the code on incomplete EXIF data and on a failed lookup: each
    handler catches [OSError] only, so the [KeyError] of an absent field
    and the [LookupError] of the sensor database (no row, or two rows,
    for the make and model) reach the caller; nothing is logged and
    nothing is returned. *)
Theorem get_intrinsics_from_exif_propagates :
  (forall csv,
      get_intrinsics_from_exif csv ∅
      = (Raise (Exn KeyError "EXIF FocalLength"), []))
  /\ raised (get_intrinsics_from_exif (ret nikon_db)
               (delete "Image Make" sample_exif)) = Some KeyError
  /\ raised (get_intrinsics_from_exif (ret nikon_db)
               (delete "Image Model" sample_exif)) = Some KeyError
  /\ raised (get_intrinsics_from_exif (ret nikon_db)
               (delete "EXIF ExifImageWidth" sample_exif)) = Some KeyError
  /\ raised (get_intrinsics_from_exif (ret nikon_db)
               (delete "EXIF ExifImageLength" sample_exif)) = Some KeyError
  /\ raised (get_intrinsics_from_exif (ret sample_db) sample_exif)
     = Some LookupError
  /\ raised (get_intrinsics_from_exif (ret (nikon_db ++ nikon_db)) sample_exif)
     = Some LookupError.
Proof.
  split;
    [intros csv; apply get_intrinsics_from_exif_missing_focal; reflexivity|].
  repeat split; by_decide.
Qed.

(** ** CalibrationLoader: Agisoft/OpenCV XML *)

Lemma remap_dist_eq a b c d rest :
  remap_dist (a :: b :: c :: d :: rest)
  = (Return [Some a; Some b; Some d; Some c;
             if bool_decide (length rest = 1 \/ length rest = 2)%nat
             then rest !! 0%nat else None;
             if bool_decide (length rest = 2)%nat
             then rest !! 1%nat else None], []).
Proof.
  destruct rest as [|e [|f [|g rest]]]; reflexivity.
Qed.

Lemma remap_dist_short dist_ :
  (length dist_ < 4)%nat -> raised (remap_dist dist_) = Some IndexError.
Proof.
  intros H. destruct dist_ as [|a [|b [|c [|d rest]]]]; try reflexivity.
  simpl in H. lia.
Qed.

(** Reading the fields succeeds only when the 4th child is tagged
    [type_id = "opencv-matrix"]. *)
Lemma agisoft_fields_type_id py_int py_float root x l :
  agisoft_fields py_int py_float root = (Return x, l) ->
  exists r3,
    child root 3 = (Return r3, [])
    /\ el_attrib r3 !! "type_id" = Some "opencv-matrix".
Proof.
  unfold agisoft_fields.
  destruct (child root 3) as [[r3|e] l3] eqn:H3.
  2:{ intros H. unfold mbind at 1, py_bind, bind at 1 in H. discriminate H. }
  intros H. assert (l3 = []) as ->.
  { destruct root as [t a tx cs]. unfold child in H3. revert H3.
    destruct (cs !! 3%nat); intros H3; [injection H3; auto|discriminate H3]. }
  exists r3. split; [reflexivity|].
  change (Return r3, []) with (ret (A:=element) r3) in H.
  rewrite mbind_ret in H. unfold dict_getitem in H.
  destruct (el_attrib r3 !! "type_id") as [ty|]; [|discriminate H].
  rewrite mbind_ret in H.
  destruct (decide (ty = "opencv-matrix")) as [->|Hne]; [reflexivity|].
  rewrite bool_decide_eq_false_2 in H by exact Hne. discriminate H.
Qed.

(** C6: once the tree has been read (which requires the 4th child to carry
    [type_id = "opencv-matrix"]) with a distortion vector [dist_] of at
    least four entries, the result holds [k1 = dist_[0]], [k2 = dist_[1]],
    [p1 = dist_[3]], [p2 = dist_[2]], then [k3 = dist_[4]] exactly when
    [dist_] has 5 or 6 entries and [k4 = dist_[5]] exactly when it has 6,
    and [None] in their place otherwise. *)
Theorem read_agisoft_xml_opencv_remap
    (py_int : string -> py Z) (py_float : string -> py Qc)
    (root : element) w h k (dist_ : list Qc) l :
  agisoft_fields py_int py_float root = (Return (w, h, k, dist_), l) ->
  (4 <= length dist_)%nat ->
  exists k1 k2 p1 p2,
    dist_ !! 0%nat = Some k1 /\ dist_ !! 1%nat = Some k2
    /\ dist_ !! 3%nat = Some p1 /\ dist_ !! 2%nat = Some p2
    /\ read_agisoft_xml_opencv py_int py_float root
       = (Return (w, h, k,
                  [Some k1; Some k2; Some p1; Some p2;
                   if bool_decide (length dist_ = 5 \/ length dist_ = 6)%nat
                   then dist_ !! 4%nat else None;
                   if bool_decide (length dist_ = 6)%nat
                   then dist_ !! 5%nat else None]), l).
Proof.
  intros H Hlen.
  destruct dist_ as [|a [|b [|c [|d rest]]]]; simpl in Hlen; try lia.
  exists a, b, d, c. repeat split.
  unfold read_agisoft_xml_opencv, mbind, py_bind, bind. rewrite H.
  rewrite remap_dist_eq. simpl. rewrite app_nil_r.
  destruct rest as [|e [|f [|g rest]]]; reflexivity.
Qed.

Lemma read_agisoft_xml_opencv_remap_witness :
  exists w h k dist_,
    agisoft_fields sample_int sample_float sample_xml
    = (Return (w, h, k, dist_), [])
    /\ (4 <= length dist_)%nat
    /\ read_agisoft_xml_opencv sample_int sample_float sample_xml
       = (Return (w, h, k,
                  [Some (Q2Qc 0.1); Some (Q2Qc 0.05); Some (Q2Qc 0.002);
                   Some (Q2Qc 0.001); Some (Q2Qc 0.3); None]), []).
Proof.
  exists 1920%Z, 1080%Z, sample_K,
    [Q2Qc 0.1; Q2Qc 0.05; Q2Qc 0.001; Q2Qc 0.002; Q2Qc 0.3].
  assert (H : agisoft_fields sample_int sample_float sample_xml
              = (Return (1920%Z, 1080%Z, sample_K,
                         [Q2Qc 0.1; Q2Qc 0.05; Q2Qc 0.001; Q2Qc 0.002;
                          Q2Qc 0.3]), [])) by by_decide.
  assert (Hlen : (4 <= length [Q2Qc 0.1; Q2Qc 0.05; Q2Qc 0.001; Q2Qc 0.002;
                               Q2Qc 0.3])%nat) by (simpl; lia).
  split; [exact H|]. split; [exact Hlen|].
  destruct (read_agisoft_xml_opencv_remap sample_int sample_float sample_xml
              _ _ _ _ _ H Hlen)
    as (k1 & k2 & p1 & p2 & H0 & H1 & H3 & H2 & Hr).
  injection H0 as <-. injection H1 as <-. injection H3 as <-.
  injection H2 as <-.
  exact Hr.
Defined.

(** ** MatrixFactorizer *)

Lemma sign_nonzero x : x <> 0 -> sign x = 1 \/ sign x = - (1).
Proof.
  intros Hx. unfold sign. destruct (x ?= 0) eqn:Hc; auto.
  exfalso. apply Hx. apply Qceq_alt. exact Hc.
Qed.

(** Lines 348 to 350 of [factor_P] on a diagonal of three non-zero
    entries: the sign matrix has determinant one once the flip is done. *)
Lemma sign_matrix_det dt (d0 d1 d2 : Qc) :
  d0 <> 0 -> d1 <> 0 -> d2 <> 0 ->
  exists T,
    (T ← np_diag (np_sign (Arr1 dt [d0; d1; d2]));
     d ← linalg_det T;
     if decide (d < 0) then imul_at T 1 1 (- (1)) else ret T)
    = (Return T, [])
    /\ linalg_det T = (Return 1, []).
Proof.
  intros H0 H1 H2. cbn [np_sign map].
  destruct (sign_nonzero d0 H0) as [-> | ->];
  destruct (sign_nonzero d1 H1) as [-> | ->];
  destruct (sign_nonzero d2 H2) as [-> | ->];
  eexists; (split; [vm_compute; reflexivity|]); by_decide.
Qed.

(** The example of the design document, the RQ routine answering with the
    triangular input itself and the identity. *)
Lemma factor_P_example :
  factor_P (rq_const sample_K (np_eye 3)) example_camera
  = (Return (sample_K, np_eye 3, Arr2 float64 1 [[0]; [0]; [num 5]]), []).
Proof. by_decide. Qed.

Lemma turned_K0_upper_triangular : upper_triangular turned_K0.
Proof.
  intros i j Hji. unfold entry, turned_K0.
  destruct i as [|[|[|i]]]; [lia| | |].
  - destruct j as [|j]; [reflexivity|lia].
  - destruct j as [|[|j]]; [reflexivity|reflexivity|lia].
  - simpl. destruct i, j; reflexivity.
Qed.

(** C3, the code on an RQ factorization whose orthogonal factor is a
    reflection: for the camera turned by a quarter turn, [turned_K0] and
    [turned_R0] are an upper-triangular and an orthonormal factor of
    [P[:, :3]]; the sign matrix is [diag(1, -1, 1)], its determinant is
    negative, the flip turns it into the identity, and [factor_P] returns
    [K] with the diagonal entry -1000 and [R] with determinant -1. *)
Theorem factor_P_reflection_factor :
  exists p3,
    (p ← P turned_camera; getslice2 p 0 None 0 (Some 3%nat)) = (Return p3, [])
    /\ matmul turned_K0 turned_R0 = (Return p3, [])
    /\ upper_triangular turned_K0
    /\ orthonormal (rows_of turned_R0)
    /\ factor_P (rq_const turned_K0 turned_R0) turned_camera
       = (Return (turned_K0, turned_R0, Arr2 float64 1 [[0]; [0]; [num 5]]),
          [])
    /\ entry turned_K0 1 1 < 0
    /\ linalg_det turned_R0 = (Return (- (1)), []).
Proof.
  exists (Arr2 float64 3
            [[0; - num 1000; num 960]; [num 1000; 0; num 540]; [0; 0; 1]]).
  split; [by_decide|]. split; [by_decide|].
  split; [exact turned_K0_upper_triangular|].
  split; [by_decide|]. split; [by_decide|].
  split; [reflexivity|by_decide].
Qed.

(** * Further properties of the code *)

(** ** Pose and extrinsics *)



Ltac via H :=
  match type of H with ?l = _ => transitivity l; [ring | exact H] end.

Ltac via_rows H0 H1 H2 ci c0 c1 c2 :=
  match type of H0 with ?l0 = _ =>
  match type of H1 with ?l1 = _ =>
  match type of H2 with ?l2 = _ =>
    transitivity (- (l0 * c0 + l1 * c1 + l2 * c2) + ci);
    [ring | rewrite H0, H1, H2; ring]
  end end end.

(** X2: for a rigid extrinsics matrix of floats whose rotation block is
    made of 0, 1 and -1, the pose that [extrinsics_to_pose] returns is its
    inverse: [extrinsics @ pose] is the 4 by 4 identity, entry for entry
    (no product or sum of the two computations rounds). *)
Theorem extrinsics_times_pose (self : Camera) (m : ndarray) :
  rigid m -> axis_aligned m -> dtype_of m <> int64 ->
  exists p,
    extrinsics_to_pose self (Some m) = (Return p, [])
    /\ matmul m p = (Return (np_eye 4), []).
Proof.
  intros Hm _ _. destruct (rigid_inv m Hm)
    as (dt & a00 & a01 & a02 & a10 & a11 & a12 & a20 & a21 & a22
        & c0 & c1 & c2 & -> & Ho).
  unfold orthonormal in Ho. cbv -[Qcplus Qcmult Qcopp Q2Qc] in Ho.
  apply rows3_inj in Ho.
  destruct Ho as ((H00 & H01 & H02) & (H10 & H11 & H12) & (H20 & H21 & H22)).
  eexists. split; [apply extrinsics_to_pose_formula|].
  destruct dt; cbv -[Qcplus Qcmult Qcopp Q2Qc]; repeat f_equal;
    first [ ring | via H00 | via H01 | via H02 | via H10 | via H11 | via H12
          | via H20 | via H21 | via H22
          | via_rows H00 H01 H02 c0 c0 c1 c2
          | via_rows H10 H11 H12 c1 c0 c1 c2
          | via_rows H20 H21 H22 c2 c0 c1 c2 ].
Qed.

Lemma extrinsics_times_pose_witness :
  rigid sample_pose /\ axis_aligned sample_pose
  /\ dtype_of sample_pose <> int64
  /\ exists p,
      extrinsics_to_pose sample_camera (Some sample_pose) = (Return p, [])
      /\ matmul sample_pose p = (Return (np_eye 4), []).
Proof.
  assert (H : rigid sample_pose) by by_decide.
  assert (Ha : axis_aligned sample_pose) by by_decide.
  assert (Hd : dtype_of sample_pose <> int64) by discriminate.
  split; [exact H|]. split; [exact Ha|]. split; [exact Hd|].
  exact (extrinsics_times_pose sample_camera sample_pose H Ha Hd).
Defined.

(** ** [make_mat_homogeneous] and [build_pose_matrix] *)

Lemma wf_row dt m rows i r :
  wf (Arr2 dt m rows) = true -> rows !! i = Some r -> length r = m.
Proof.
  simpl. intros Hwf Hr. rewrite forallb_forall in Hwf.
  apply Nat.eqb_eq, Hwf. apply list_elem_of_In.
  eapply list_elem_of_lookup_2. exact Hr.
Qed.

Lemma map_nth_seq (r : list Qc) :
  map (fun j => nth j r 0) (seq 0 (length r)) = r.
Proof.
  apply list_eq. intros j. rewrite list_lookup_fmap.
  destruct (decide (j < length r)%nat) as [Hj|Hj].
  - rewrite lookup_seq_lt by exact Hj. simpl.
    destruct (lookup_lt_is_Some_2 r j Hj) as [x Hx]. rewrite Hx.
    f_equal. apply nth_lookup_Some with (d := 0) in Hx. exact Hx.
  - rewrite lookup_seq_ge by lia. simpl. symmetry.
    apply lookup_ge_None. lia.
Qed.

Lemma make_mat_homogeneous_rows dt m rows :
  wf (Arr2 dt m rows) = true ->
  make_mat_homogeneous (Arr2 dt m rows)
  = (Return (Arr2 float64 m (rows ++ [eye_row (length rows) m])), []).
Proof.
  intros Hwf. unfold make_mat_homogeneous, setslice2, np_eye2.
  cbn [shape]. cbv beta iota.
  set (n := length rows).
  rewrite length_map, length_seq.
  unfold broadcast_to2, slice_len.
  replace (Nat.min (n - 0) (n + 1 - 0)) with n by lia.
  replace (Nat.min (m - 0) (m - 0)) with m by lia.
  rewrite (bool_decide_eq_true_2 (length rows = n \/ _)) by (left; reflexivity).
  rewrite (bool_decide_eq_true_2 (m = m \/ _)) by (left; reflexivity).
  cbn [andb]. unfold ret. do 3 f_equal.
  apply list_eq. intros i. rewrite list_lookup_imap, list_lookup_fmap.
  destruct (decide (i < n)%nat) as [Hi|Hi].
  - rewrite lookup_seq_lt by lia. cbn [fmap option_fmap option_map].
    rewrite (bool_decide_eq_true_2 (0 <= i < 0 + n)%nat) by lia.
    rewrite lookup_app_l by exact Hi.
    destruct (lookup_lt_is_Some_2 rows i Hi) as [r Hr]. rewrite Hr. f_equal.
    pose proof (wf_row _ _ _ _ _ Hwf Hr) as Hlen.
    rewrite take_0, drop_ge by (rewrite length_map, length_seq; lia).
    rewrite app_nil_r. cbn [app].
    replace (i - 0)%nat with i by lia.
    etransitivity; [|apply map_nth_seq]. rewrite Hlen.
    apply map_ext_in. intros j Hj. apply in_seq in Hj.
    assert (Hi' : (if decide (length rows = 1%nat) then 0%nat else i) = i).
    { destruct (decide (length rows = 1%nat)) as [He|He]; [|reflexivity].
      unfold n in Hi. rewrite He in Hi. lia. }
    assert (Hj' : (if decide (m = 1%nat) then 0%nat else j) = j).
    { destruct (decide (m = 1%nat)) as [He|He]; [lia|reflexivity]. }
    rewrite Hi', Hj'. rewrite (nth_lookup_Some rows i [] r Hr). reflexivity.
  - destruct (decide (i = n)) as [->|Hne].
    + rewrite lookup_seq_lt by lia. cbn [fmap option_fmap option_map].
      rewrite (bool_decide_eq_false_2 (0 <= n < 0 + n)%nat) by lia.
      rewrite lookup_app_r by (fold n; lia).
      replace (n - length rows)%nat with 0%nat by (fold n; lia).
      reflexivity.
    + rewrite lookup_seq_ge by lia. cbn. symmetry.
      apply lookup_ge_None. rewrite length_app. simpl. fold n. lia.
Qed.

Lemma eye_row_zero n m : (m <= n)%nat -> eye_row n m = replicate m 0.
Proof.
  intros H. unfold eye_row. apply list_eq. intros j.
  rewrite list_lookup_fmap.
  destruct (decide (j < m)%nat) as [Hj|Hj].
  - rewrite lookup_seq_lt by exact Hj. rewrite lookup_replicate_2 by exact Hj.
    simpl. rewrite decide_False by lia. reflexivity.
  - rewrite lookup_seq_ge by lia. symmetry. apply lookup_replicate_None. lia.
Qed.

(** X3: on a well-formed n by m array [make_mat_homogeneous] returns the
    float64 array of the same rows followed by row n of [np.eye(n + 1, m)].
    That row is all zeros when [m <= n] (no trailing 1, unlike the
    docstring's picture) and is [[0, ..., 0, 1]] when [m = n + 1]. *)
Theorem make_mat_homogeneous_appends_identity_row dt m rows :
  wf (Arr2 dt m rows) = true ->
  make_mat_homogeneous (Arr2 dt m rows)
  = (Return (Arr2 float64 m (rows ++ [eye_row (length rows) m])), [])
  /\ ((m <= length rows)%nat -> eye_row (length rows) m = replicate m 0)
  /\ (m = S (length rows) ->
      eye_row (length rows) m = replicate (length rows) 0 ++ [1]).
Proof.
  intros Hwf. split; [apply make_mat_homogeneous_rows; exact Hwf|].
  split; [apply eye_row_zero|].
  intros ->. unfold eye_row. rewrite seq_S, map_app. simpl.
  rewrite decide_True by reflexivity. f_equal.
  apply list_eq. intros j. rewrite list_lookup_fmap.
  destruct (decide (j < length rows)%nat) as [Hj|Hj].
  - rewrite lookup_seq_lt by exact Hj. rewrite lookup_replicate_2 by exact Hj.
    simpl. rewrite decide_False by lia. reflexivity.
  - rewrite lookup_seq_ge by lia. symmetry. apply lookup_replicate_None. lia.
Qed.

Lemma make_mat_homogeneous_appends_identity_row_witness :
  wf (Arr2 float32 2 [[num 1; num 2]; [num 3; num 4]; [num 5; num 6]]) = true
  /\ make_mat_homogeneous
       (Arr2 float32 2 [[num 1; num 2]; [num 3; num 4]; [num 5; num 6]])
     = (Return (Arr2 float64 2
                  [[num 1; num 2]; [num 3; num 4]; [num 5; num 6]; [0; 0]]),
        []).
Proof.
  assert (H : wf (Arr2 float32 2 [[num 1; num 2]; [num 3; num 4];
                                  [num 5; num 6]]) = true) by reflexivity.
  split; [exact H|].
  exact (proj1 (make_mat_homogeneous_appends_identity_row float32 2%nat
                  [[num 1; num 2]; [num 3; num 4]; [num 5; num 6]] H)).
Defined.

(** X4: [make_mat_homogeneous] turns any 3 by 4 matrix [[R | t]] into the
    4 by 4 matrix with last row [[0, 0, 0, 1]], which [update_extrinsics]
    accepts and stores. *)
Theorem make_mat_homogeneous_3x4_accepted (self : Camera) dt
    a b c x d e f y g h i z :
  exists m,
    make_mat_homogeneous
      (Arr2 dt 4 [[a; b; c; x]; [d; e; f; y]; [g; h; i; z]])
    = (Return m, [])
    /\ m = Arr2 float64 4
             [[a; b; c; x]; [d; e; f; y]; [g; h; i; z]; [0; 0; 0; 1]]
    /\ update_extrinsics self m = (Return (set_extrinsics self m), []).
Proof.
  eexists. split; [|split; [reflexivity|]].
  - apply (make_mat_homogeneous_rows dt 4
             [[a; b; c; x]; [d; e; f; y]; [g; h; i; z]]). reflexivity.
  - rewrite update_extrinsics_eval. reflexivity.
Qed.

Lemma build_pose_matrix_column dt dt' a b c d e f g h i x y z :
  build_pose_matrix (Arr2 dt 3 [[a; b; c]; [d; e; f]; [g; h; i]])
    (Arr2 dt' 1 [[x]; [y]; [z]])
  = (Return (Arr2 float64 4
       [[a; b; c; x]; [d; e; f; y]; [g; h; i; z]; [0; 0; 0; 1]]), []).
Proof. reflexivity. Qed.

Lemma build_pose_matrix_row dt dt' a b c d e f g h i x y z :
  build_pose_matrix (Arr2 dt 3 [[a; b; c]; [d; e; f]; [g; h; i]])
    (Arr2 dt' 3 [[x; y; z]])
  = (Return (Arr2 float64 4
       [[a; b; c; x]; [d; e; f; y]; [g; h; i; z]; [0; 0; 0; 1]]), []).
Proof. reflexivity. Qed.

(** X5: [build_pose_matrix] raises a [ValueError] unless [R] is 3 by 3
    and [C] is 3 by 1 or 1 by 3. This includes a rank-1 [C] of length 3:
    the shape test lets it through, [C.T] leaves it as it is, and the
    assignment to the 3 by 1 slice cannot broadcast it. *)
Theorem build_pose_matrix_rejects (R C : ndarray) :
  ~ (shape R = [3; 3]%nat /\ (shape C = [3; 1]%nat \/ shape C = [1; 3]%nat)) ->
  exists msg, build_pose_matrix R C = (Raise (Exn ValueError msg), []).
Proof.
  intros Hn. unfold build_pose_matrix.
  destruct (decide (shape R = [3; 3]%nat)) as [HR|HR].
  2:{ rewrite bool_decide_eq_true_2 by exact HR. eexists. reflexivity. }
  rewrite bool_decide_eq_false_2 by (intros H; apply H; exact HR).
  destruct (decide (shape C = [3]%nat)) as [H3|H3].
  - rewrite (bool_decide_eq_true_2 (shape C = [3]%nat)) by exact H3.
    cbn [orb].
    destruct C as [dt x|dt v|dt nc rows]; try discriminate H3.
    destruct R as [dr x|dr w|dr nr rr]; try discriminate HR.
    simpl in HR, H3. injection HR as Hlr ->. injection H3 as Hlv.
    destruct rr as [|r0 [|r1 [|r2 [|]]]]; try discriminate Hlr.
    destruct v as [|v0 [|v1 [|v2 [|]]]]; try discriminate Hlv.
    eexists. reflexivity.
  - rewrite (bool_decide_eq_false_2 (shape C = [3]%nat)) by exact H3.
    destruct (decide (shape C = [1; 3]%nat)) as [H13|H13].
    { exfalso. apply Hn. auto. }
    rewrite (bool_decide_eq_false_2 (shape C = [1; 3]%nat)) by exact H13.
    cbn [orb].
    destruct (decide (shape C = [3; 1]%nat)) as [H31|H31].
    { exfalso. apply Hn. auto. }
    rewrite bool_decide_eq_true_2 by exact H31. eexists. reflexivity.
Qed.

Lemma build_pose_matrix_rejects_witness :
  ~ (shape (np_eye 3) = [3; 3]%nat
     /\ (shape (Arr1 float64 [num 1; num 2; num 3]) = [3; 1]%nat
         \/ shape (Arr1 float64 [num 1; num 2; num 3]) = [1; 3]%nat))
  /\ exists msg,
      build_pose_matrix (np_eye 3) (Arr1 float64 [num 1; num 2; num 3])
      = (Raise (Exn ValueError msg), []).
Proof.
  assert (H : ~ (shape (np_eye 3) = [3; 3]%nat
                 /\ (shape (Arr1 float64 [num 1; num 2; num 3]) = [3; 1]%nat
                     \/ shape (Arr1 float64 [num 1; num 2; num 3])
                        = [1; 3]%nat))).
  { intros (_ & [H|H]); discriminate H. }
  split; [exact H|].
  exact (build_pose_matrix_rejects (np_eye 3)
           (Arr1 float64 [num 1; num 2; num 3]) H).
Defined.

(** ** Reading the exterior orientation back *)

(** X6: a 3 by 3 rotation and a translation given as a length-3 vector or
    a 3 by 1 column, combined by [Rt_to_extrinsics] and stored with
    [update_extrinsics], are read back by the properties [R] and [t] (as
    float64, [t] as a column); the other fields of the camera are kept. *)
Theorem Rt_read_back (self : Camera) dt dt' a b c d e f g h i x y z
    (t : ndarray) :
  t = Arr1 dt' [x; y; z] \/ t = Arr2 dt' 1 [[x]; [y]; [z]] ->
  exists ext cam,
    Rt_to_extrinsics (Arr2 dt 3 [[a; b; c]; [d; e; f]; [g; h; i]]) t
    = (Return ext, [])
    /\ update_extrinsics self ext = (Return cam, [])
    /\ Camera_R cam
       = (Return (Arr2 float64 3 [[a; b; c]; [d; e; f]; [g; h; i]]), [])
    /\ Camera_t cam = (Return (Arr2 float64 1 [[x]; [y]; [z]]), [])
    /\ K cam = K self /\ dist cam = dist self
    /\ width cam = width self /\ height cam = height self.
Proof.
  intros Ht. eexists. eexists. split.
  { destruct Ht as [-> | ->];
      [apply Rt_to_extrinsics_vector|apply Rt_to_extrinsics_column]. }
  split; [rewrite update_extrinsics_eval; reflexivity|].
  repeat split.
Qed.

Lemma Rt_read_back_witness :
  exists ext cam,
    Rt_to_extrinsics (np_eye 3) (Arr1 float64 [num 1; num 2; num 3])
    = (Return ext, [])
    /\ update_extrinsics sample_camera ext = (Return cam, [])
    /\ Camera_t cam
       = (Return (Arr2 float64 1 [[num 1]; [num 2]; [num 3]]), []).
Proof.
  destruct (Rt_read_back sample_camera float64 float64 1 0 0 0 1 0 0 0 1
              (num 1) (num 2) (num 3) (Arr1 float64 [num 1; num 2; num 3])
              (or_introl eq_refl))
    as (ext & cam & H1 & H2 & _ & H4 & _).
  exists ext, cam. repeat split; assumption.
Defined.



Ltac via_neg H0 H1 H2 c0 c1 c2 :=
  match type of H0 with ?l0 = _ =>
  match type of H1 with ?l1 = _ =>
  match type of H2 with ?l2 = _ =>
    transitivity (- (l0 * c0 + l1 * c1 + l2 * c2));
    [ring | rewrite H0, H1, H2; ring]
  end end end.

(** X8: for a camera whose extrinsics are a rigid matrix of floats with a
    rotation block made of 0, 1 and -1, the properties [R], [C] and [t]
    satisfy [R @ C = -t] entry for entry, the relation [t = -R * C] of the
    docstring of [t]. *)
Theorem translation_from_centre (self : Camera) :
  rigid (extrinsics self) -> axis_aligned (extrinsics self) ->
  dtype_of (extrinsics self) <> int64 ->
  exists R C t RC,
    Camera_R self = (Return R, [])
    /\ Camera_C self = (Return C, [])
    /\ Camera_t self = (Return t, [])
    /\ matmul R C = (Return RC, [])
    /\ rows_of RC = rows_of (np_neg t).
Proof.
  intros Hm _ _. destruct (rigid_inv _ Hm)
    as (dt & a00 & a01 & a02 & a10 & a11 & a12 & a20 & a21 & a22
        & c0 & c1 & c2 & He & Ho).
  unfold orthonormal in Ho. cbv -[Qcplus Qcmult Qcopp Q2Qc] in Ho.
  apply rows3_inj in Ho.
  destruct Ho as ((H00 & H01 & H02) & (H10 & H11 & H12) & (H20 & H21 & H22)).
  unfold Camera_R, Camera_C, Camera_t, extrinsics_to_pose.
  unfold extrinsics in He. cbn [default]. rewrite He.
  rewrite extrinsics_to_pose_formula.
  eexists _, _, _, _. split; [reflexivity|]. split; [reflexivity|].
  split; [reflexivity|]. split; [reflexivity|].
  cbv -[Qcplus Qcmult Qcopp Q2Qc]. repeat f_equal.
  - via_neg H00 H01 H02 c0 c1 c2.
  - via_neg H10 H11 H12 c0 c1 c2.
  - via_neg H20 H21 H22 c0 c1 c2.
Qed.

Lemma translation_from_centre_witness :
  rigid (extrinsics (set_extrinsics sample_camera sample_pose))
  /\ axis_aligned (extrinsics (set_extrinsics sample_camera sample_pose))
  /\ exists R C t RC,
      Camera_R (set_extrinsics sample_camera sample_pose) = (Return R, [])
      /\ Camera_C (set_extrinsics sample_camera sample_pose) = (Return C, [])
      /\ Camera_t (set_extrinsics sample_camera sample_pose) = (Return t, [])
      /\ matmul R C = (Return RC, [])
      /\ rows_of RC = rows_of (np_neg t).
Proof.
  assert (H : rigid (extrinsics (set_extrinsics sample_camera sample_pose)))
    by by_decide.
  assert (Ha : axis_aligned
                 (extrinsics (set_extrinsics sample_camera sample_pose)))
    by by_decide.
  assert (Hd : dtype_of (extrinsics (set_extrinsics sample_camera sample_pose))
               <> int64) by discriminate.
  split; [exact H|]. split; [exact Ha|].
  exact (translation_from_centre (set_extrinsics sample_camera sample_pose)
           H Ha Hd).
Defined.

(** ** [factor_P] for any answer of the RQ routine *)

Lemma sign_cases x :
  x <> 0 -> exists b, sign x = sgn b /\ (if b then 0 < x else x < 0).
Proof.
  intros Hx. unfold sign. destruct (x ?= 0) eqn:Hc.
  - exfalso. apply Hx. apply Qceq_alt. exact Hc.
  - exists false. split; [reflexivity|]. apply Qclt_alt. exact Hc.
  - exists true. split; [reflexivity|]. apply Qcgt_alt. exact Hc.
Qed.

Lemma mbind_eval {A B} (m : py A) (k : A -> py B) a :
  m = (Return a, []) -> (m ≫= k) = k a.
Proof. intros ->. apply (mbind_ret a k). Qed.

Lemma sign_fix_bind {B} (b0 b1 b2 : bool) (k : ndarray -> py B) :
  (np_diag (Arr1 float64 [sgn b0; sgn b1; sgn b2])
   ≫= fun T => linalg_det T
   ≫= fun d => (if decide (d < 0) then imul_at T 1 1 (- (1)) else ret T)
   ≫= k)
  = k (diag3 (sgn b0) (sgn (eqb b0 b2)) (sgn b2)).
Proof.
  destruct b0, b1, b2;
    (erewrite mbind_eval; [|vm_compute; reflexivity]);
    (erewrite mbind_eval; [|vm_compute; reflexivity]);
    (erewrite mbind_eval; [|vm_compute; reflexivity]);
    f_equal; by_decide.
Qed.

Lemma np_dot_diag_r a b c d e f g h i s0 s1 s2 :
  np_dot (Arr2 float64 3 [[a; b; c]; [d; e; f]; [g; h; i]]) (diag3 s0 s1 s2)
  = ret (Arr2 float64 3
           [[a * s0; b * s1; c * s2]; [d * s0; e * s1; f * s2];
            [g * s0; h * s1; i * s2]]).
Proof. cbv -[Qcplus Qcmult Qcopp Q2Qc]; repeat f_equal; ring. Qed.

Lemma np_dot_diag_l a b c d e f g h i s0 s1 s2 :
  np_dot (diag3 s0 s1 s2) (Arr2 float64 3 [[a; b; c]; [d; e; f]; [g; h; i]])
  = ret (Arr2 float64 3
           [[s0 * a; s0 * b; s0 * c]; [s1 * d; s1 * e; s1 * f];
            [s2 * g; s2 * h; s2 * i]]).
Proof. cbv -[Qcplus Qcmult Qcopp Q2Qc]; repeat f_equal; ring. Qed.

Lemma sgn_nonzero b : sgn b <> 0.
Proof. destruct b; discriminate. Qed.

Lemma Qc_mult_nonzero a b : a <> 0 -> b <> 0 -> a * b <> 0.
Proof.
  intros Ha Hb H. apply Qcmult_integral in H. destruct H; contradiction.
Qed.

Lemma Qc_pos_mul a b : 0 < a -> 0 < b -> 0 < a * b.
Proof.
  intros Ha Hb. replace 0 with (0 * b) by ring.
  apply Qcmult_lt_compat_r; assumption.
Qed.

Lemma Qc_neg_opp a : a < 0 -> 0 < - a.
Proof.
  intros H. apply Qclt_minus_iff in H.
  replace (0 + - a) with (- a) in H by ring. exact H.
Qed.

Lemma Qc_opp_neg a : 0 < a -> - a < 0.
Proof.
  intros H. apply Qclt_minus_iff.
  replace (0 + - - a) with a by ring. exact H.
Qed.

Lemma Qc_not_both a : 0 < a -> a < 0 -> False.
Proof. intros H1 H2. exact (Qclt_not_eq _ _ (Qclt_trans _ _ _ H1 H2) eq_refl). Qed.

(** The sign of [x * sgn b'] when [b] records the sign of [x]. *)
Lemma sgn_mul_pos x (b b' : bool) :
  (if b then 0 < x else x < 0) -> (0 < x * sgn b' <-> b = b').
Proof.
  intros L. destruct b, b'; unfold sgn; split; intros H; try reflexivity;
    try discriminate.
  - replace (x * 1) with x by ring. exact L.
  - exfalso. replace (x * - (1)) with (- x) in H by ring.
    apply Qc_opp_neg in L. exact (Qc_not_both _ H L).
  - exfalso. replace (x * 1) with x in H by ring. exact (Qc_not_both _ H L).
  - replace (x * - (1)) with (- x) by ring. apply Qc_neg_opp. exact L.
Qed.

Lemma prod3_pos k0 k1 k2 (b0 b1 b2 : bool) :
  (if b0 then 0 < k0 else k0 < 0) ->
  (if b1 then 0 < k1 else k1 < 0) ->
  (if b2 then 0 < k2 else k2 < 0) ->
  (0 < k0 * k1 * k2 <-> b1 = eqb b0 b2).
Proof.
  intros L0 L1 L2.
  assert (A0 : 0 < k0 * sgn b0) by (apply (sgn_mul_pos k0 b0 b0 L0); reflexivity).
  assert (A1 : 0 < k1 * sgn b1) by (apply (sgn_mul_pos k1 b1 b1 L1); reflexivity).
  assert (A2 : 0 < k2 * sgn b2) by (apply (sgn_mul_pos k2 b2 b2 L2); reflexivity).
  pose proof (Qc_pos_mul _ _ (Qc_pos_mul _ _ A0 A1) A2) as A.
  destruct b0, b1, b2; unfold sgn in A; cbn [eqb]; split; intros H;
    first
      [ progress (replace (k0 * 1 * (k1 * 1) * (k2 * 1)) with (k0 * k1 * k2) in A by ring)
      | progress (replace (k0 * 1 * (k1 * 1) * (k2 * - (1))) with (- (k0 * k1 * k2)) in A by ring)
      | progress (replace (k0 * 1 * (k1 * - (1)) * (k2 * 1)) with (- (k0 * k1 * k2)) in A by ring)
      | progress (replace (k0 * 1 * (k1 * - (1)) * (k2 * - (1))) with (k0 * k1 * k2) in A by ring)
      | progress (replace (k0 * - (1) * (k1 * 1) * (k2 * 1)) with (- (k0 * k1 * k2)) in A by ring)
      | progress (replace (k0 * - (1) * (k1 * 1) * (k2 * - (1))) with (k0 * k1 * k2) in A by ring)
      | progress (replace (k0 * - (1) * (k1 * - (1)) * (k2 * 1)) with (k0 * k1 * k2) in A by ring)
      | progress (replace (k0 * - (1) * (k1 * - (1)) * (k2 * - (1))) with (- (k0 * k1 * k2)) in A by ring) ].
  all: first
         [ exact A | reflexivity | discriminate H
         | exfalso; apply Qc_opp_neg in A;
           replace (- - (k0 * k1 * k2)) with (k0 * k1 * k2) in A by ring;
           exact (Qc_not_both _ H A) ].
Qed.

Lemma rows3_ext {A} (x00 x01 x02 x10 x11 x12 x20 x21 x22
                      y00 y01 y02 y10 y11 y12 y20 y21 y22 : A) :
  x00 = y00 -> x01 = y01 -> x02 = y02 ->
  x10 = y10 -> x11 = y11 -> x12 = y12 ->
  x20 = y20 -> x21 = y21 -> x22 = y22 ->
  [[x00; x01; x02]; [x10; x11; x12]; [x20; x21; x22]]
  = [[y00; y01; y02]; [y10; y11; y12]; [y20; y21; y22]].
Proof. intros. subst. reflexivity. Qed.

Lemma sign_tri x : exists o, sign x = sg o.
Proof.
  unfold sign. destruct (x ?= 0).
  - exists None. reflexivity.
  - exists (Some false). reflexivity.
  - exists (Some true). reflexivity.
Qed.

Lemma sign_fix_bind_any (o0 o1 o2 : option bool) :
  exists s0 s1 s2, forall B (k : ndarray -> py B),
    (np_diag (Arr1 float64 [sg o0; sg o1; sg o2])
     ≫= fun T => linalg_det T
     ≫= fun d => (if decide (d < 0) then imul_at T 1 1 (- (1)) else ret T)
     ≫= k)
    = k (diag3 s0 s1 s2).
Proof.
  destruct o0 as [[|]|], o1 as [[|]|], o2 as [[|]|];
    eexists _, _, _; intros B k;
    (erewrite mbind_eval; [|vm_compute; reflexivity]);
    (erewrite mbind_eval; [|vm_compute; reflexivity]);
    (erewrite mbind_eval; [|vm_compute; reflexivity]);
    reflexivity.
Qed.

Section FactorP.

(** The RQ routine, a camera whose projection matrix is [p], and the
    factors the routine answers with on [p[:, :3]]: an upper-triangular
    [K0] and any [R0]. *)
Variable rq : ndarray -> py (ndarray * ndarray).
Variables (self : Camera) (dp : dtype).
Variables p00 p01 p02 p03 p10 p11 p12 p13 p20 p21 p22 p23 : Qc.
Variables k00 k01 k02 k11 k12 k22 : Qc.
Variables r00 r01 r02 r10 r11 r12 r20 r21 r22 : Qc.

Hypothesis HP :
  P self
  = (Return (Arr2 dp 4 [[p00; p01; p02; p03]; [p10; p11; p12; p13];
                        [p20; p21; p22; p23]]), []).
Hypothesis Hrq :
  rq (Arr2 dp 3 [[p00; p01; p02]; [p10; p11; p12]; [p20; p21; p22]])
  = (Return (Arr2 float64 3 [[k00; k01; k02]; [0; k11; k12]; [0; 0; k22]],
             Arr2 float64 3 [[r00; r01; r02]; [r10; r11; r12];
                             [r20; r21; r22]]), []).

Lemma factor_P_eval :
  k00 <> 0 -> k11 <> 0 -> k22 <> 0 ->
  exists (b0 b1 b2 : bool) (t0 t1 t2 : Qc),
    (if b0 then 0 < k00 else k00 < 0)
    /\ (if b1 then 0 < k11 else k11 < 0)
    /\ (if b2 then 0 < k22 else k22 < 0)
    /\ factor_P rq self
       = (Return
            (Arr2 float64 3
               [[k00 * sgn b0; k01 * sgn (eqb b0 b2); k02 * sgn b2];
                [0 * sgn b0; k11 * sgn (eqb b0 b2); k12 * sgn b2];
                [0 * sgn b0; 0 * sgn (eqb b0 b2); k22 * sgn b2]],
             Arr2 float64 3
               [[sgn b0 * r00; sgn b0 * r01; sgn b0 * r02];
                [sgn (eqb b0 b2) * r10; sgn (eqb b0 b2) * r11;
                 sgn (eqb b0 b2) * r12];
                [sgn b2 * r20; sgn b2 * r21; sgn b2 * r22]],
             Arr2 float64 1 [[t0]; [t1]; [t2]]), [])
    /\ k00 * sgn b0 * t0 + k01 * sgn (eqb b0 b2) * t1 + k02 * sgn b2 * t2 = p03
    /\ k11 * sgn (eqb b0 b2) * t1 + k12 * sgn b2 * t2 = p13
    /\ k22 * sgn b2 * t2 = p23.
Proof.
  intros H0 H1 H2.
  destruct (sign_cases k00 H0) as (b0 & S0 & L0).
  destruct (sign_cases k11 H1) as (b1 & S1 & L1).
  destruct (sign_cases k22 H2) as (b2 & S2 & L2).
  exists b0, b1, b2.
  unfold factor_P. rewrite HP.
  change (Return ?x, []) with (ret x).
  rewrite mbind_ret.
  change (getslice2 (Arr2 dp 4 [[p00; p01; p02; p03]; [p10; p11; p12; p13]; [p20; p21; p22; p23]]) 0 None 0 (Some 3%nat))
    with (ret (Arr2 dp 3 [[p00; p01; p02]; [p10; p11; p12]; [p20; p21; p22]])).
  rewrite mbind_ret. rewrite Hrq.
  change (Return ?x, []) with (ret x).
  rewrite mbind_ret. cbv beta iota.
  change (np_diag (Arr2 float64 3 [[k00; k01; k02]; [0; k11; k12]; [0; 0; k22]]))
    with (ret (Arr1 float64 [k00; k11; k22])).
  rewrite mbind_ret. cbn [np_sign map]. rewrite S0, S1, S2.
  rewrite sign_fix_bind.
  rewrite np_dot_diag_r, mbind_ret, np_dot_diag_l, mbind_ret.
  set (s0 := sgn b0) in *. set (s1 := sgn (eqb b0 b2)) in *.
  set (s2 := sgn b2) in *.
  assert (Hs0 : s0 <> 0) by apply sgn_nonzero.
  assert (Hs1 : s1 <> 0) by apply sgn_nonzero.
  assert (Hs2 : s2 <> 0) by apply sgn_nonzero.
  unfold linalg_inv. cbn [length].
  rewrite (decide_True (P := 3%nat = 3%nat)) by reflexivity.
  clearbody s0 s1 s2.
  set (D := det_rows 3 _).
  assert (HD : D = (k00 * s0) * (k11 * s1) * (k22 * s2)).
  { unfold D. cbv -[Qcplus Qcmult Qcopp Q2Qc]. ring. }
  assert (HDnz : D <> 0).
  { rewrite HD. repeat apply Qc_mult_nonzero; assumption. }
  clearbody D.
  rewrite (decide_False (P := D = 0)) by exact HDnz.
  rewrite !mbind_ret.
  change (getcol _ 3) with (ret (Arr1 dp [p03; p13; p23])).
  rewrite mbind_ret.
  eexists _, _, _.
  split; [exact L0|]. split; [exact L1|]. split; [exact L2|].
  split.
  { cbv -[Qcplus Qcmult Qcopp Q2Qc Qcdiv]. reflexivity. }
  subst D. repeat split; field; repeat split; assumption.
Qed.

(** X9: when the RQ routine answers with an upper-triangular [K0] without
    zero on its diagonal (and any [R0]), [factor_P] returns, without
    logging, [K = K0 @ T] and [R = T @ R0] for one diagonal matrix [T] of
    signs 1 and -1: the columns of [K0] and the rows of [R0] change sign
    together, and [K @ R = K0 @ R0].  If the routine factors [P[:, :3]], so
    does the result. *)
Theorem factor_P_keeps_product :
  k00 <> 0 -> k11 <> 0 -> k22 <> 0 ->
  exists K R t s0 s1 s2,
    factor_P rq self = (Return (K, R, t), [])
    /\ (s0 = 1 \/ s0 = - (1)) /\ (s1 = 1 \/ s1 = - (1))
    /\ (s2 = 1 \/ s2 = - (1))
    /\ np_dot (Arr2 float64 3 [[k00; k01; k02]; [0; k11; k12]; [0; 0; k22]])
         (diag3 s0 s1 s2) = (Return K, [])
    /\ np_dot (diag3 s0 s1 s2)
         (Arr2 float64 3 [[r00; r01; r02]; [r10; r11; r12]; [r20; r21; r22]])
       = (Return R, [])
    /\ matmul K R
       = matmul (Arr2 float64 3 [[k00; k01; k02]; [0; k11; k12]; [0; 0; k22]])
           (Arr2 float64 3 [[r00; r01; r02]; [r10; r11; r12]; [r20; r21; r22]]).
Proof.
  intros H0 H1 H2.
  destruct (factor_P_eval H0 H1 H2)
    as (b0 & b1 & b2 & t0 & t1 & t2 & _ & _ & _ & Hf & _).
  assert (Hs : forall b, sgn b = 1 \/ sgn b = - (1))
    by (intros []; [left|right]; reflexivity).
  eexists _, _, _, (sgn b0), (sgn (eqb b0 b2)), (sgn b2).
  split; [exact Hf|]. split; [apply Hs|]. split; [apply Hs|].
  split; [apply Hs|].
  split; [apply np_dot_diag_r|]. split; [apply np_dot_diag_l|].
  destruct b0, b2; cbv -[Qcplus Qcmult Qcopp Q2Qc]; do 3 f_equal;
    apply rows3_ext; ring.
Qed.

(** X10: under the same assumptions the returned [K] has positive entries
    at [0, 0] and [2, 2]; its entry at [1, 1] is positive exactly when the
    product of the diagonal of [K0] is positive; and [det R = det R0], so
    [R] is a proper rotation exactly when [R0] is. *)
Theorem factor_P_signs :
  k00 <> 0 -> k11 <> 0 -> k22 <> 0 ->
  exists K R t,
    factor_P rq self = (Return (K, R, t), [])
    /\ 0 < entry K 0 0 /\ 0 < entry K 2 2
    /\ (0 < entry K 1 1 <-> 0 < k00 * k11 * k22)
    /\ linalg_det R
       = linalg_det
           (Arr2 float64 3 [[r00; r01; r02]; [r10; r11; r12]; [r20; r21; r22]]).
Proof.
  intros H0 H1 H2.
  destruct (factor_P_eval H0 H1 H2)
    as (b0 & b1 & b2 & t0 & t1 & t2 & L0 & L1 & L2 & Hf & _).
  eexists _, _, _. split; [exact Hf|]. cbn [entry nth].
  split; [apply (sgn_mul_pos k00 b0 b0 L0); reflexivity|].
  split; [apply (sgn_mul_pos k22 b2 b2 L2); reflexivity|].
  split.
  - rewrite (sgn_mul_pos k11 b1 (eqb b0 b2) L1).
    rewrite (prod3_pos k00 k11 k22 b0 b1 b2 L0 L1 L2). reflexivity.
  - destruct b0, b2; cbv -[Qcplus Qcmult Qcopp Q2Qc]; do 2 f_equal; ring.
Qed.

(** X11: when a diagonal entry of the [K0] answered by the RQ routine is
    zero, [factor_P] raises [LinAlgError] (from [linalg.inv(K)]) and
    returns nothing. *)
Theorem factor_P_zero_diagonal :
  k00 = 0 \/ k11 = 0 \/ k22 = 0 ->
  factor_P rq self = (Raise (Exn LinAlgError "singular matrix"), []).
Proof.
  intros Hz.
  destruct (sign_tri k00) as (o0 & S0).
  destruct (sign_tri k11) as (o1 & S1).
  destruct (sign_tri k22) as (o2 & S2).
  destruct (sign_fix_bind_any o0 o1 o2) as (s0 & s1 & s2 & Hfix).
  unfold factor_P. rewrite HP.
  change (Return ?x, []) with (ret x).
  rewrite mbind_ret.
  change (getslice2 (Arr2 dp 4 [[p00; p01; p02; p03]; [p10; p11; p12; p13];
                                [p20; p21; p22; p23]]) 0 None 0 (Some 3%nat))
    with (ret (Arr2 dp 3 [[p00; p01; p02]; [p10; p11; p12];
                          [p20; p21; p22]])).
  rewrite mbind_ret. rewrite Hrq.
  change (Return ?x, []) with (ret x).
  rewrite mbind_ret. cbv beta iota.
  change (np_diag (Arr2 float64 3 [[k00; k01; k02]; [0; k11; k12];
                                   [0; 0; k22]]))
    with (ret (Arr1 float64 [k00; k11; k22])).
  rewrite mbind_ret. cbn [np_sign map]. rewrite S0, S1, S2.
  rewrite Hfix.
  rewrite np_dot_diag_r, mbind_ret, np_dot_diag_l, mbind_ret.
  unfold linalg_inv. cbn [length].
  rewrite (decide_True (P := 3%nat = 3%nat)) by reflexivity.
  set (D := det_rows 3 _).
  assert (HD : D = (k00 * s0) * (k11 * s1) * (k22 * s2)).
  { unfold D. cbv -[Qcplus Qcmult Qcopp Q2Qc]. ring. }
  assert (HD0 : D = 0).
  { rewrite HD. destruct Hz as [-> | [-> | ->]]; ring. }
  clearbody D.
  rewrite (decide_True (P := D = 0)) by exact HD0.
  reflexivity.
Qed.

End FactorP.

Lemma turned_camera_P :
  P turned_camera
  = (Return (Arr2 float64 4
       [[0; - num 1000; num 960; num 4800]; [num 1000; 0; num 540; num 2700];
        [0; 0; 1; num 5]]), []).
Proof. by_decide. Qed.

Lemma factor_P_keeps_product_witness :
  exists K R t s0 s1 s2,
    factor_P (rq_const turned_K0 turned_R0) turned_camera
    = (Return (K, R, t), [])
    /\ (s0 = 1 \/ s0 = - (1)) /\ (s1 = 1 \/ s1 = - (1))
    /\ (s2 = 1 \/ s2 = - (1))
    /\ np_dot turned_K0 (diag3 s0 s1 s2) = (Return K, [])
    /\ np_dot (diag3 s0 s1 s2) turned_R0 = (Return R, [])
    /\ matmul K R = matmul turned_K0 turned_R0.
Proof.
  refine (factor_P_keeps_product (rq_const turned_K0 turned_R0) turned_camera
            float64 0 (- num 1000) (num 960) (num 4800)
            (num 1000) 0 (num 540) (num 2700) 0 0 1 (num 5)
            (num 1000) 0 (num 960) (- num 1000) (num 540) 1
            0 (- (1)) 0 (- (1)) 0 0 0 0 1
            turned_camera_P eq_refl _ _ _); by_decide.
Defined.

Lemma factor_P_signs_witness :
  exists K R t,
    factor_P (rq_const turned_K0 turned_R0) turned_camera
    = (Return (K, R, t), [])
    /\ 0 < entry K 0 0 /\ 0 < entry K 2 2
    /\ (0 < entry K 1 1 <-> 0 < num 1000 * - num 1000 * 1)
    /\ linalg_det R = linalg_det turned_R0.
Proof.
  refine (factor_P_signs (rq_const turned_K0 turned_R0) turned_camera
            float64 0 (- num 1000) (num 960) (num 4800)
            (num 1000) 0 (num 540) (num 2700) 0 0 1 (num 5)
            (num 1000) 0 (num 960) (- num 1000) (num 540) 1
            0 (- (1)) 0 (- (1)) 0 0 0 0 1
            turned_camera_P eq_refl _ _ _); by_decide.
Defined.

Lemma flat_camera_P :
  P flat_camera
  = (Return (Arr2 float64 4
       [[0; 0; num 960; 0]; [0; num 1000; num 540; 0]; [0; 0; 1; 0]]), []).
Proof. by_decide. Qed.

Lemma factor_P_zero_diagonal_witness :
  (0 = 0 \/ num 1000 = 0 \/ 1 = 0)
  /\ factor_P (rq_const flat_K (np_eye 3)) flat_camera
     = (Raise (Exn LinAlgError "singular matrix"), []).
Proof.
  assert (H : 0 = 0 \/ num 1000 = 0 \/ 1 = 0) by (left; reflexivity).
  split; [exact H|].
  exact (factor_P_zero_diagonal (rq_const flat_K (np_eye 3)) flat_camera
           float64 0 0 (num 960) 0 0 (num 1000) (num 540) 0 0 0 1 0
           0 0 (num 960) (num 1000) (num 540) 1
           1 0 0 0 1 0 0 0 1
           flat_camera_P eq_refl H).
Defined.

(** ** The sensor database *)

Lemma is_space_lower c : is_space (lower_ascii c) = is_space c.
Proof. destruct c as [[] [] [] [] [] [] [] []]; reflexivity. Qed.

Lemma lower_ascii_idem c : lower_ascii (lower_ascii c) = lower_ascii c.
Proof. destruct c as [[] [] [] [] [] [] [] []]; reflexivity. Qed.

Lemma str_lower_idem s : str_lower (str_lower s) = str_lower s.
Proof.
  induction s as [|c s IH]; simpl; [reflexivity|].
  rewrite lower_ascii_idem, IH. reflexivity.
Qed.

Lemma str_lower_of_list l :
  str_lower (string_of_list_ascii l)
  = string_of_list_ascii (map lower_ascii l).
Proof. induction l as [|c l IH]; simpl; [reflexivity|]. rewrite IH. reflexivity. Qed.

Lemma split_go_lower s cur :
  split_go (str_lower s) (map lower_ascii cur)
  = map str_lower (split_go s cur).
Proof.
  revert cur. induction s as [|c s IH]; intros cur; simpl.
  - destruct cur as [|x cur]; simpl; [reflexivity|].
    f_equal. rewrite str_lower_of_list. f_equal.
    change (rev (map lower_ascii cur) ++ [lower_ascii x])
      with (rev (map lower_ascii (x :: cur))).
    rewrite <- map_rev. reflexivity.
  - rewrite is_space_lower. destruct (is_space c).
    + pose proof (IH []) as IH0. cbn [map] in IH0. rewrite IH0.
      destruct cur as [|x cur]; simpl; [reflexivity|].
      f_equal. rewrite str_lower_of_list. f_equal.
      change (rev (map lower_ascii cur) ++ [lower_ascii x])
        with (rev (map lower_ascii (x :: cur))).
      rewrite <- map_rev. reflexivity.
    + apply (IH (c :: cur)).
Qed.

Lemma str_split_lower s : str_split (str_lower s) = map str_lower (str_split s).
Proof. apply (split_go_lower s []). Qed.

(** [lookup] in terms of the lower-cased query; the message of the
    [LookupError] quotes the query as it was given. *)
Lemma lookup_lower df make model :
  lookup df make model
  = match str_split (str_lower make) with
    | [] => raise IndexError "list index out of range"
    | tok :: _ =>
        let selected :=
          filter (fun r => CameraMaker r = tok
                           /\ CameraModel r = str_lower model) df in
        if decide (length selected ≠ 1%nat)
        then raise LookupError
               ("make='" ++ make ++ "' and model='" ++ model
                ++ "' not found in sensor database")
        else r ← list_getitem selected 0; ret (SensorWidth r)
    end.
Proof.
  unfold lookup, list_getitem. rewrite str_split_lower.
  destruct (str_split make) as [|tok rest]; [reflexivity|].
  cbn [map]. change ((tok :: rest) !! 0%nat) with (Some tok).
  cbv beta iota.
  rewrite mbind_ret. reflexivity.
Qed.

(** X13: on ASCII text [lookup] does not depend on the letter case of the
    make and model it is asked for: two queries that agree once lower-cased
    return the same width, or raise an exception of the same class, and log
    the same (the message of a [LookupError] quotes the query as given). *)
Theorem lookup_case_insensitive df make make' model model' :
  is_ascii make = true -> is_ascii make' = true ->
  is_ascii model = true -> is_ascii model' = true ->
  str_lower make = str_lower make' ->
  str_lower model = str_lower model' ->
  returned (lookup df make model) = returned (lookup df make' model')
  /\ raised (lookup df make model) = raised (lookup df make' model')
  /\ (lookup df make model).2 = (lookup df make' model').2.
Proof.
  intros _ _ _ _ Hm Hd. rewrite !lookup_lower, Hm, Hd.
  destruct (str_split (str_lower make')) as [|tok rest];
    [repeat split; reflexivity|].
  cbv zeta. destruct (decide _); repeat split; reflexivity.
Qed.

Lemma lookup_case_insensitive_witness :
  str_lower "NIKON CORPORATION" = str_lower "Nikon Corporation"
  /\ str_lower "NIKON D800" = str_lower "nikon d800"
  /\ returned (lookup nikon_db "NIKON CORPORATION" "NIKON D800")
     = returned (lookup nikon_db "Nikon Corporation" "nikon d800")
  /\ raised (lookup nikon_db "NIKON CORPORATION" "NIKON D800")
     = raised (lookup nikon_db "Nikon Corporation" "nikon d800").
Proof.
  assert (H1 : str_lower "NIKON CORPORATION" = str_lower "Nikon Corporation")
    by reflexivity.
  assert (H2 : str_lower "NIKON D800" = str_lower "nikon d800") by reflexivity.
  split; [exact H1|]. split; [exact H2|].
  destruct (lookup_case_insensitive nikon_db "NIKON CORPORATION"
              "Nikon Corporation" "NIKON D800" "nikon d800"
              eq_refl eq_refl eq_refl eq_refl H1 H2) as (Hr & He & _).
  split; assumption.
Defined.

Lemma has_space_of_list l :
  has_space (string_of_list_ascii l) = existsb is_space l.
Proof. unfold has_space. rewrite list_ascii_of_string_of_list_ascii. reflexivity. Qed.

Lemma existsb_rev_false (l : list ascii) :
  existsb is_space l = false -> existsb is_space (rev l) = false.
Proof.
  intros H. apply not_true_is_false. intros Hr.
  apply existsb_exists in Hr. destruct Hr as (x & Hin & Hx).
  apply in_rev in Hin.
  assert (existsb is_space l = true) by (apply existsb_exists; eauto).
  congruence.
Qed.

Lemma token_of_cur cur :
  cur <> [] -> existsb is_space cur = false ->
  has_space (string_of_list_ascii (rev cur)) = false
  /\ string_of_list_ascii (rev cur) <> EmptyString.
Proof.
  intros Hne Hsp. split.
  - rewrite has_space_of_list. apply existsb_rev_false. exact Hsp.
  - destruct cur as [|c cur]; [congruence|]. simpl.
    destruct (rev cur) as [|x l]; simpl; discriminate.
Qed.

(** Every token that [str.split()] yields is non-empty and free of white
    space. *)
Lemma split_go_tokens s cur tok :
  existsb is_space cur = false ->
  In tok (split_go s cur) ->
  has_space tok = false /\ tok <> EmptyString.
Proof.
  revert cur. induction s as [|c s IH]; intros cur Hcur Hin; simpl in Hin.
  - destruct cur as [|x cur]; [destruct Hin|].
    destruct Hin as [<-|[]]. apply token_of_cur; [discriminate|exact Hcur].
  - destruct (is_space c) eqn:Hc.
    + destruct cur as [|x cur].
      * apply (IH [] eq_refl Hin).
      * destruct Hin as [<-|Hin].
        -- apply token_of_cur; [discriminate|exact Hcur].
        -- apply (IH [] eq_refl Hin).
    + apply (IH (c :: cur)); [|exact Hin]. simpl. rewrite Hc. exact Hcur.
Qed.

Lemma str_split_tokens s tok :
  In tok (str_split s) -> has_space tok = false /\ tok <> EmptyString.
Proof. apply (split_go_tokens s []). reflexivity. Qed.

Lemma split_go_no_space s cur :
  has_space s = false ->
  split_go s cur
  = match rev cur ++ list_ascii_of_string s with
    | [] => []
    | l => [string_of_list_ascii l]
    end.
Proof.
  revert cur. induction s as [|c s IH]; intros cur Hs.
  - simpl. rewrite app_nil_r. destruct cur as [|x cur]; [reflexivity|].
    simpl. destruct (rev cur ++ [x]) eqn:E; [|reflexivity].
    destruct (rev cur); discriminate E.
  - unfold has_space in Hs. simpl in Hs. apply orb_false_iff in Hs.
    destruct Hs as [Hc Hs]. simpl. rewrite Hc. rewrite (IH (c :: cur) Hs).
    simpl. rewrite <- app_assoc. reflexivity.
Qed.

Lemma str_split_single s :
  has_space s = false -> s <> EmptyString -> str_split s = [s].
Proof.
  intros Hs Hne. unfold str_split. rewrite split_go_no_space by exact Hs.
  simpl. destruct s as [|c s]; [congruence|]. simpl.
  rewrite string_of_list_ascii_of_string. reflexivity.
Qed.

Lemma split_go_blank s : blank s = true -> split_go s [] = [].
Proof.
  induction s as [|c s IH]; intros H; [reflexivity|].
  unfold blank in H. simpl in H. apply andb_true_iff in H.
  destruct H as [Hc Hs]. simpl. rewrite Hc. apply IH. exact Hs.
Qed.

(** X14: a make that is empty or made of white space only has no first
    word: [lookup] raises [IndexError], not the [LookupError] of a camera
    that is not found. *)
Theorem lookup_blank_make df make model :
  blank make = true ->
  lookup df make model
  = (Raise (Exn IndexError "list index out of range"), []).
Proof.
  intros H. unfold lookup, str_split. rewrite split_go_blank by exact H.
  reflexivity.
Qed.

Lemma lookup_blank_make_witness :
  blank "  " = true
  /\ lookup nikon_db "  " "NIKON D800"
     = (Raise (Exn IndexError "list index out of range"), []).
Proof.
  assert (H : blank "  " = true) by reflexivity.
  split; [exact H|]. exact (lookup_blank_make nikon_db "  " "NIKON D800" H).
Defined.

Lemma str_lower_no_space tok :
  has_space tok = false -> has_space (str_lower tok) = false.
Proof.
  unfold has_space. induction tok as [|x tok IH]; simpl; [reflexivity|].
  intros H. apply orb_false_iff in H. destruct H as [Hx Ht].
  rewrite is_space_lower, Hx. exact (IH Ht).
Qed.

(** X15: when [lookup] returns a width, it logs nothing and the width is
    that of a row of the table whose model is the lower-cased query model
    and whose maker is a single non-empty word (the lower-cased first word
    of the query make), and no other row of the table has that maker and
    model. *)
Theorem lookup_found_row df make model w l :
  lookup df make model = (Return w, l) ->
  l = []
  /\ exists r,
      r ∈ df /\ SensorWidth r = w
      /\ CameraModel r = str_lower model
      /\ has_space (CameraMaker r) = false
      /\ CameraMaker r <> EmptyString
      /\ (forall r', r' ∈ df -> CameraMaker r' = CameraMaker r ->
                     CameraModel r' = CameraModel r -> r' = r).
Proof.
  unfold lookup, list_getitem.
  destruct (str_split make) as [|tok rest] eqn:Hsplit; [discriminate|].
  change ((tok :: rest) !! 0%nat) with (Some tok). cbv beta iota.
  rewrite mbind_ret.
  set (sel := filter _ df).
  destruct (decide (length sel ≠ 1%nat)) as [Hn|Hn]; [discriminate|].
  destruct sel as [|r [|r' sel']] eqn:Hsel; simpl in Hn; try lia.
  change ([r] !! 0%nat) with (Some r). cbv beta iota. rewrite mbind_ret.
  intros H. injection H as <- <-. split; [reflexivity|].
  exists r.
  assert (Hr : r ∈ sel) by (rewrite Hsel; apply list_elem_of_here).
  unfold sel in Hr. apply list_elem_of_filter in Hr.
  destruct Hr as [[Hmk Hmd] Hin].
  split; [exact Hin|]. split; [reflexivity|]. split; [exact Hmd|].
  destruct (str_split_tokens make tok) as [Hsp Hne].
  { rewrite Hsplit. left. reflexivity. }
  rewrite Hmk. split; [apply str_lower_no_space; exact Hsp|].
  split; [destruct tok; [congruence|discriminate]|].
  intros r' Hin' Hmk' Hmd'.
  assert (Hr' : r' ∈ sel).
  { unfold sel. apply list_elem_of_filter. split; [|exact Hin'].
    split; congruence. }
  rewrite Hsel in Hr'. apply list_elem_of_singleton in Hr'. exact Hr'.
Qed.

Lemma lookup_found_row_witness :
  exists r,
    lookup [Build_sensor_row "nikon" "nikon d800" (Q2Qc 35.9)]
      "NIKON CORPORATION" "NIKON D800" = (Return (Q2Qc 35.9), [])
    /\ SensorWidth r = Q2Qc 35.9 /\ has_space (CameraMaker r) = false.
Proof.
  assert (H : lookup [Build_sensor_row "nikon" "nikon d800" (Q2Qc 35.9)]
                "NIKON CORPORATION" "NIKON D800" = (Return (Q2Qc 35.9), []))
    by reflexivity.
  destruct (lookup_found_row _ _ _ _ _ H) as (_ & r & _ & Hw & _ & Hs & _).
  exists r. repeat split; assumption.
Defined.

Lemma filter_map_unique {A B} (f : A -> B) (Pb : B -> Prop)
    `{forall b, Decision (Pb b)} (rows : list A) (r : A) :
  NoDup rows -> r ∈ rows -> Pb (f r) ->
  (forall r', r' ∈ rows -> Pb (f r') -> r' = r) ->
  filter Pb (map f rows) = [f r].
Proof.
  induction rows as [|x xs IH]; intros Hnd Hin HP Hu.
  - apply elem_of_nil in Hin. destruct Hin.
  - apply NoDup_cons in Hnd. destruct Hnd as [Hx Hnd]. simpl.
    destruct (decide (Pb (f x))) as [HPx|HPx].
    + assert (x = r) as -> by (apply Hu; [left|exact HPx]).
      rewrite filter_cons_True by exact HP. f_equal.
      assert (Hnone : forall xs', (forall y, y ∈ xs' -> y ∈ xs) ->
                                 filter Pb (map f xs') = []).
      { induction xs' as [|y ys IHy]; intros Hsub; [reflexivity|]. simpl.
        rewrite filter_cons_False.
        - apply IHy. intros z Hz. apply Hsub. right. exact Hz.
        - intros HPy. assert (y = r).
          { apply Hu; [right; apply Hsub; left|exact HPy]. }
          subst y. apply Hx. apply Hsub. left. }
      apply Hnone. auto.
    + rewrite filter_cons_False by exact HPx.
      apply IH; [exact Hnd| |exact HP|].
      * apply elem_of_cons in Hin. destruct Hin as [->|Hin];
          [contradiction|exact Hin].
      * intros r' Hr' HPr'. apply Hu; [right; exact Hr'|exact HPr'].
Qed.

(** X16: take csv rows in ASCII, without duplicates.  A row whose maker is
    a single word and which alone has its maker and model up to letter case
    is found again: after [SensorWidthDatabase] has lower-cased the table,
    looking up the row's own maker and model returns its sensor width. *)
Theorem database_round_trip (rows : list sensor_row) (r : sensor_row) :
  Forall (fun r' => is_ascii (CameraMaker r') = true
                    /\ is_ascii (CameraModel r') = true) rows ->
  NoDup rows -> r ∈ rows ->
  (forall r', r' ∈ rows ->
     str_lower (CameraMaker r') = str_lower (CameraMaker r) ->
     str_lower (CameraModel r') = str_lower (CameraModel r) -> r' = r) ->
  has_space (CameraMaker r) = false -> CameraMaker r <> EmptyString ->
  exists df,
    SensorWidthDatabase (ret rows) = (Return df, [])
    /\ lookup df (CameraMaker r) (CameraModel r)
       = (Return (SensorWidth r), []).
Proof.
  intros _ Hnd Hin Hu Hsp Hne. eexists. split.
  { unfold SensorWidthDatabase. rewrite mbind_ret. reflexivity. }
  unfold lookup, list_getitem. rewrite str_split_single by assumption.
  change ([CameraMaker r] !! 0%nat) with (Some (CameraMaker r)).
  cbv beta iota. rewrite mbind_ret.
  rewrite (filter_map_unique _ _ rows r Hnd Hin).
  - reflexivity.
  - split; reflexivity.
  - intros r' Hr' [Hmk Hmd]. simpl in Hmk, Hmd. apply Hu; assumption.
Qed.

Lemma database_round_trip_witness :
  exists df,
    SensorWidthDatabase (ret nikon_db) = (Return df, [])
    /\ lookup df "Nikon" "Nikon D800" = (Return (Q2Qc 35.9), []).
Proof.
  apply (database_round_trip nikon_db
           (Build_sensor_row "Nikon" "Nikon D800" (Q2Qc 35.9))).
  - repeat constructor.
  - apply NoDup_singleton.
  - apply list_elem_of_here.
  - intros r' Hr' _ _. apply list_elem_of_singleton in Hr'. exact Hr'.
  - reflexivity.
  - discriminate.
Defined.

(** ** [get_intrinsics_from_exif] *)

Lemma mbind_inv {A B} (m : py A) (k : A -> py B) b l :
  (m ≫= k) = (Return b, l) ->
  exists a l1 l2, m = (Return a, l1) /\ k a = (Return b, l2) /\ l = l1 ++ l2.
Proof.
  unfold mbind, py_bind, bind. destruct m as [[a|e] l1]; [|discriminate].
  destruct (k a) as [r l2] eqn:Hk. intros H. injection H as -> <-.
  exists a, l1, l2. auto.
Qed.

Lemma mbind_raise_inv {A B} (m : py A) (k : A -> py B) e l :
  (m ≫= k) = (Raise e, l) ->
  m = (Raise e, l)
  \/ exists a l1 l2, m = (Return a, l1) /\ k a = (Raise e, l2).
Proof.
  unfold mbind, py_bind, bind. destruct m as [[a|e'] l1].
  - destruct (k a) as [r l2] eqn:Hk. intros H. injection H as -> <-.
    right. exists a, l1, l2. auto.
  - intros H. injection H as -> ->. left. reflexivity.
Qed.

Lemma non_os_bind {A B} (m : py A) (k : A -> py B) :
  non_os m -> (forall a, non_os (k a)) -> non_os (m ≫= k).
Proof.
  intros Hm Hk e l H. apply mbind_raise_inv in H.
  destruct H as [H|(a & l1 & l2 & _ & H)].
  - exact (Hm _ _ H).
  - exact (Hk a _ _ H).
Qed.

Lemma non_os_ret {A} (a : A) : non_os (ret a).
Proof. intros e l H. discriminate H. Qed.

Lemma non_os_dict_getitem {V} (d : gmap string V) k : non_os (dict_getitem d k).
Proof.
  intros e l. unfold dict_getitem. destruct (d !! k); [discriminate|].
  intros H. injection H as <- _. reflexivity.
Qed.

Lemma non_os_list_getitem {A} (v : list A) i : non_os (list_getitem v i).
Proof.
  intros e l. unfold list_getitem. destruct (v !! i); [discriminate|].
  intros H. injection H as <- _. reflexivity.
Qed.

Lemma non_os_lookup df make model : non_os (lookup df make model).
Proof.
  unfold lookup. apply non_os_bind; [apply non_os_list_getitem|].
  intros first. cbv beta zeta. destruct (decide _).
  - intros e l H. injection H as <- _. reflexivity.
  - apply non_os_bind; [apply non_os_list_getitem|]. intros r.
    apply non_os_ret.
Qed.

Lemma try_except_non_os {A} (body h : py A) :
  non_os body -> try_except body OSError h = body.
Proof.
  intros Hb. unfold try_except. destruct body as [[a|e] l]; [reflexivity|].
  rewrite (Hb e l eq_refl). reflexivity.
Qed.

Lemma non_os_SensorWidthDatabase rows lc :
  non_os (SensorWidthDatabase (Return rows, lc)).
Proof.
  intros e l H. unfold SensorWidthDatabase, mbind, py_bind, bind in H.
  simpl in H. discriminate H.
Qed.

Ltac solve_non_os :=
  repeat first
    [ apply non_os_ret
    | apply non_os_dict_getitem
    | apply non_os_list_getitem
    | apply non_os_lookup
    | apply non_os_SensorWidthDatabase
    | apply non_os_bind; [|intros ?] ].

Lemma dict_getitem_log {V} (d : gmap string V) k v l :
  dict_getitem d k = (Return v, l) -> l = [].
Proof.
  unfold dict_getitem. destruct (d !! k); [|discriminate].
  intros H. injection H as _ <-. reflexivity.
Qed.

Lemma list_getitem_log {A} (d : list A) k v l :
  list_getitem d k = (Return v, l) -> l = [].
Proof.
  unfold list_getitem. destruct (d !! k); [|discriminate].
  intros H. injection H as _ <-. reflexivity.
Qed.

(** X17: [get_intrinsics_from_exif] returns [None] in one case only:
    reading the sensor database raised an [OSError]; the log then ends with
    the sensor-database message. Incomplete EXIF data and a camera that is
    not listed never give [None]. *)
Theorem get_intrinsics_from_exif_None csv (exif : gmap string IfdTag) l :
  get_intrinsics_from_exif csv exif = (Return None, l) ->
  exists e lc,
    csv = (Raise e, lc) /\ issubclass (exn_cls e) OSError = true
    /\ l = lc ++ [LogError "Unable to get sensor size in mm from sensor database"].
Proof.
  unfold get_intrinsics_from_exif. intros H.
  rewrite (try_except_non_os (dict_getitem exif "EXIF FocalLength" ≫= _)) in H
    by solve_non_os.
  rewrite (try_except_non_os (dict_getitem exif "EXIF ExifImageWidth" ≫= _)) in H
    by solve_non_os.
  apply mbind_inv in H. destruct H as (r1 & l1 & l2 & H1 & H & ->).
  apply mbind_inv in H1. destruct H1 as (tf & la & lb & Hf & H1 & ->).
  apply mbind_inv in H1. destruct H1 as (f & lc1 & ld & Hv & H1 & ->).
  injection H1 as <- <-.
  apply dict_getitem_log in Hf as ->. apply list_getitem_log in Hv as ->.
  cbv beta iota in H. simpl app.
  apply mbind_inv in H. destruct H as (r2 & l21 & l22 & H2 & H & ->).
  destruct csv as [[rows|e] lcsv].
  - exfalso.
    rewrite try_except_non_os in H2 by solve_non_os.
    apply mbind_inv in H2. destruct H2 as (df & ? & ? & _ & H2 & _).
    apply mbind_inv in H2. destruct H2 as (mk & ? & ? & _ & H2 & _).
    apply mbind_inv in H2. destruct H2 as (md & ? & ? & _ & H2 & _).
    apply mbind_inv in H2. destruct H2 as (w & ? & ? & _ & H2 & _).
    injection H2 as <- _. cbv beta iota in H.
    apply mbind_inv in H. destruct H as (r3 & l31 & l32 & H3 & H & _).
    apply mbind_inv in H3. destruct H3 as (tw & ? & ? & _ & H3 & _).
    apply mbind_inv in H3. destruct H3 as (wpx & ? & ? & _ & H3 & _).
    apply mbind_inv in H3. destruct H3 as (th & ? & ? & _ & H3 & _).
    apply mbind_inv in H3. destruct H3 as (hpx & ? & ? & _ & H3 & _).
    injection H3 as <- _. cbv beta iota in H. discriminate H.
  - unfold SensorWidthDatabase, try_except, mbind, py_bind, bind in H2.
    simpl in H2.
    destruct (issubclass (exn_cls e) OSError) eqn:He; [|discriminate H2].
    simpl in H2. injection H2 as <- <-. cbv beta iota in H.
    injection H as <-. exists e, lcsv. rewrite app_nil_r. auto.
Qed.

Lemma get_intrinsics_from_exif_None_witness :
  get_intrinsics_from_exif (raise FileNotFoundError "sensor_database.csv")
    sample_exif
  = (Return None,
     [LogError "Unable to get sensor size in mm from sensor database"])
  /\ exists e lc,
      (raise FileNotFoundError "sensor_database.csv" : py (list sensor_row))
      = (Raise e, lc)
      /\ issubclass (exn_cls e) OSError = true
      /\ [LogError "Unable to get sensor size in mm from sensor database"]
         = lc ++ [LogError
                    "Unable to get sensor size in mm from sensor database"].
Proof.
  assert (H : get_intrinsics_from_exif
                (raise FileNotFoundError "sensor_database.csv") sample_exif
              = (Return None,
                 [LogError
                    "Unable to get sensor size in mm from sensor database"]))
    by by_decide.
  split; [exact H|].
  exact (get_intrinsics_from_exif_None
           (raise FileNotFoundError "sensor_database.csv") sample_exif _ H).
Defined.

(** ** [read_agisoft_xml_opencv] *)

(** X18: [read_agisoft_xml_opencv] checks the type of the fourth child of
    the root before it reads anything else: when its [type_id] is absent
    the call raises [KeyError], when it is not "opencv-matrix" it raises
    [AssertionError], whatever the other elements hold and whatever
    [int] and [float] would do on them. *)
Theorem read_agisoft_xml_opencv_type_first py_int py_float tag attrib text
    (children : list element) (r3 : element) :
  children !! 3%nat = Some r3 ->
  el_attrib r3 !! "type_id" <> Some "opencv-matrix" ->
  exists cls msg,
    read_agisoft_xml_opencv py_int py_float (Element tag attrib text children)
    = (Raise (Exn cls msg), [])
    /\ (cls = KeyError \/ cls = AssertionError)
    /\ (cls = KeyError <-> el_attrib r3 !! "type_id" = None).
Proof.
  intros H3 Hty.
  unfold read_agisoft_xml_opencv, agisoft_fields, child, dict_getitem.
  rewrite H3. rewrite mbind_ret.
  destruct (el_attrib r3 !! "type_id") as [ty|] eqn:Hattr.
  - rewrite mbind_ret.
    rewrite bool_decide_eq_false_2 by (intros ->; apply Hty; reflexivity).
    eexists _, _. split; [reflexivity|]. split; [right; reflexivity|].
    split; discriminate.
  - eexists _, _. split; [reflexivity|]. split; [left; reflexivity|].
    split; reflexivity.
Qed.

Lemma read_agisoft_xml_opencv_type_first_witness :
  exists cls msg,
    read_agisoft_xml_opencv sample_int sample_float
      (Element "opencv_storage" ∅ None fisheye_xml)
    = (Raise (Exn cls msg), [])
    /\ (cls = KeyError \/ cls = AssertionError)
    /\ (cls = KeyError
        <-> el_attrib
              (Element "Camera_Matrix" {[ "type_id" := "fisheye" ]} None [])
            !! "type_id" = None).
Proof.
  refine (read_agisoft_xml_opencv_type_first sample_int sample_float
            "opencv_storage" ∅ None fisheye_xml
            (Element "Camera_Matrix" {[ "type_id" := "fisheye" ]} None [])
            eq_refl _).
  by_decide.
Defined.
